(** * A shallow embedding of pycommence

    The Python package drives the Commence COM automation server.  The
    development below embeds the parts of it that render the ViewFilter
    strings, translate COM errors, cache connections, and manage the
    filter state of cursors.

    Modelling conventions:
    - A Python computation that may raise is a state/exception function
      [PyM S A := S -> Result A * S]; a raised exception keeps the state
      reached so far, as mutations in Python persist.
    - The COM server (and the thin wrapper objects that forward to it) is an
      environment [com : list ComCall -> ComCall -> Reply]: its reply to a
      call depends on the history of earlier calls.  Every COM call is
      appended to the history kept in the state, so a theorem can say
      exactly which calls the code makes.  Theorems quantify over [com]. *)

From stdpp Require Import base gmap strings list pretty.
From Stdlib Require Import ZArith Lia.

Local Open Scope Z_scope.
Local Open Scope string_scope.

(** ** Strings *)

Definition str_empty : string := EmptyString.
(** The double-quote character. *)
Definition dq : string := String (Ascii.ascii_of_nat 34) EmptyString.

(** Python's [str(i)] for an [int]. *)
Definition py_int_str (i : Z) : string := pretty i.

(** Python truthiness of a [str]. *)
Definition str_truthy (s : string) : bool :=
  match s with EmptyString => false | _ => true end.

(** ** Python exceptions *)

Inductive PyExc :=
| CmcError (msg : string)
| ComError (hresult : Z) (msg : string)
| AttributeError (attr : string)
| ValueError (msg : string)
| AssertionError.

Inductive Result (A : Type) :=
| Ok (a : A)
| Raise (e : PyExc).
Arguments Ok {A} a.
Arguments Raise {A} e.

(** ** The state/exception monad *)

Definition PyM (S A : Type) : Type := S -> Result A * S.

Definition py_ret {S A} (a : A) : PyM S A := fun s => (Ok a, s).
Definition py_raise {S A} (e : PyExc) : PyM S A := fun s => (Raise e, s).
Definition py_bind {S A B} (m : PyM S A) (k : A -> PyM S B) : PyM S B :=
  fun s => match m s with
           | (Ok a, s') => k a s'
           | (Raise e, s') => (Raise e, s')
           end.
Definition py_get {S} : PyM S S := fun s => (Ok s, s).
Definition py_put {S} (s : S) : PyM S unit := fun _ => (Ok tt, s).

(** [try: m except: h]: the handler receives the exception and the state
    reached when it was raised. *)
Definition py_try {S A} (m : PyM S A) (h : PyExc -> PyM S A) : PyM S A :=
  fun s => match m s with
           | (Ok a, s') => (Ok a, s')
           | (Raise e, s') => h e s'
           end.

(** [try: m finally: f] *)
Definition py_finally {S A} (m : PyM S A) (f : PyM S unit) : PyM S A :=
  fun s => match m s with
           | (r, s') => match f s' with
                        | (Ok _, s'') => (r, s'')
                        | (Raise e, s'') => (Raise e, s'')
                        end
           end.

Notation "x <- m ;; k" := (py_bind m (fun x => k))
  (at level 100, m at next level, right associativity).
Notation "m ;;; k" := (py_bind m (fun _ => k))
  (at level 100, right associativity).

(** ** The COM server *)

(** A row of a row set: Python's [dict[str, str]]. *)
Abbreviation Row := (gmap string string).

Inductive SeekBookmark := BEGINNING | CURRENT | END_BOOKMARK.

Inductive ComCall :=
| Dispatch (name : string)
| GetCursor (mode : Z) (name : option string) (flags : string)
| SetFilter (s : string)
| SetSort (s : string)
| SetFilterLogic (s : string)
| SeekRow (bookmark : SeekBookmark) (rows : Z)
| RowCount
| Category
| GetQueryRowSet (count : option Z)
| RowSetRows
| ColumnLabel (col : Z)
| GetAddRowSet (count : Z)
| GetEditRowSet
| GetDeleteRowSet
| ModifyRow (row col : Z) (v : string)
| ModifyRowDict (row : Z) (pkg : list (string * string))
| DeleteRow (row : Z)
| Commit.

Inductive Reply :=
| RNone
| RInt (z : Z)
| RStr (s : string)
| RBool (b : bool)
| RRows (rows : list Row)
| RObj (handle : nat)
| RRaise (e : PyExc).

Definition type_error : PyExc := ValueError "unexpected COM reply".

(** A state that carries the COM call history. *)
Class HasLog (S : Type) := {
  get_log : S -> list ComCall;
  set_log : list ComCall -> S -> S
}.

Section Com.
Context {S : Type} `{HasLog S}.
Variable com : list ComCall -> ComCall -> Reply.

(** Issue one COM call: record it and return the server's reply, raising
    what the server raises. *)
Definition com_call (c : ComCall) : PyM S Reply :=
  fun s => let h := get_log s in
           let s' := set_log (h ++ [c])%list s in
           match com h c with
           | RRaise e => (Raise e, s')
           | r => (Ok r, s')
           end.

Definition com_unit (c : ComCall) : PyM S unit := r <- com_call c ;; py_ret tt.
Definition com_int (c : ComCall) : PyM S Z :=
  r <- com_call c ;; match r with RInt z => py_ret z | _ => py_raise type_error end.
Definition com_str (c : ComCall) : PyM S string :=
  r <- com_call c ;; match r with RStr z => py_ret z | _ => py_raise type_error end.
Definition com_bool (c : ComCall) : PyM S bool :=
  r <- com_call c ;; match r with RBool z => py_ret z | _ => py_raise type_error end.
Definition com_rows (c : ComCall) : PyM S (list Row) :=
  r <- com_call c ;; match r with RRows z => py_ret z | _ => py_raise type_error end.
Definition com_obj (c : ComCall) : PyM S nat :=
  r <- com_call c ;; match r with RObj z => py_ret z | _ => py_raise type_error end.
End Com.

(** ** pycmc_types: CmcFilter and FilterArray *)

Inductive FilterType := F | CTI | CTCF | CTCTI.
Definition FilterType_str (t : FilterType) : string :=
  match t with F => "F" | CTI => "CTI" | CTCF => "CTCF" | CTCTI => "CTCTI" end.

(** [ConditionType] is a [StrEnum]: an f-string renders its value. *)
Inductive ConditionType := EQUAL | CONTAIN | AFTER | BETWEEN | BEFORE
                         | NOT_EQUAL | NOT_CONTAIN | ON.
Definition ConditionType_str (c : ConditionType) : string :=
  match c with
  | EQUAL => "Equal To" | CONTAIN => "Contains" | AFTER => "After"
  | BETWEEN => "Is Between" | BEFORE => "Before" | NOT_EQUAL => "Not Equal To"
  | NOT_CONTAIN => "Not Contains" | ON => "On"
  end.

Inductive NotFlagType := Not | NotFlagEmpty.
Definition NotFlagType_str (n : NotFlagType) : string :=
  match n with Not => "Not" | NotFlagEmpty => EmptyString end.

Record CmcFilter := {
  cmc_col : string;
  f_type : FilterType;
  value : string;
  condition : ConditionType;
  not_flag : NotFlagType
}.

(** [CmcFilter.filter_str2] *)
Definition filter_str2 (self : CmcFilter) (slot : Z) : string :=
  "[ViewFilter(" ++ py_int_str slot ++ ", " ++ FilterType_str (f_type self)
  ++ ", " ++ NotFlagType_str (not_flag self) ++ ", " ++ cmc_col self
  ++ ", " ++ ConditionType_str (condition self)
  ++ (if str_truthy (value self) then ", " ++ value self else EmptyString)
  ++ ")]".

(** ** api/cmc_csr.py: the [Csr] cursor API *)

(** The state seen by a [Csr]: the history of calls on its COM cursor
    (a [CsrCmc] wrapper forwarding to Commence). *)
Record CsrWorld := { csr_log : list ComCall }.

#[global] Instance CsrWorld_log : HasLog CsrWorld :=
  {| get_log := csr_log; set_log := fun h _ => {| csr_log := h |} |}.

Module Csr.
Section Csr.
Variable com : list ComCall -> ComCall -> Reply.

(** The [filter_str] that [Csr.filter_by_field] builds. *)
Definition field_filter_str (field_name condition value : string) (fslot : Z) : string :=
  let val_cond := if str_truthy value then ", " ++ dq ++ value ++ dq else EmptyString in
  "[ViewFilter(" ++ py_int_str fslot ++ ", F,, " ++ field_name
  ++ ", " ++ condition ++ val_cond ++ ")]".

(** [Csr.filter_by_field] *)
Definition filter_by_field (field_name condition value : string) (fslot : Z)
  : PyM CsrWorld unit :=
  com_unit com (SetFilter (field_filter_str field_name condition value fslot)).

(** [Csr.filter_by_name] *)
Definition filter_by_name (name : string) (fslot : Z) : PyM CsrWorld unit :=
  filter_by_field "Name" "Equal To" name fslot.

(** [Csr.get_records]: [get_query_row_set(count)], then [get_rows_dict()]
    on the row set. *)
Definition get_records (count : option Z) : PyM CsrWorld (list Row) :=
  com_unit com (GetQueryRowSet count) ;;;
  com_rows com RowSetRows.

(** [Csr.get_record] *)
Definition get_record (record_name : string) : PyM CsrWorld Row :=
  filter_by_name record_name 1 ;;;
  records <- get_records None ;;
  match records with
  | [] => py_raise (CmcError ("No record found for " ++ record_name))
  | r0 :: _ =>
      if Nat.ltb 1 (length records)
      then py_raise (CmcError ("Expected 1 record, got "
                               ++ py_int_str (Z.of_nat (length records))))
      else py_ret r0
  end.

(** [Csr.delete_record]: the body of its [try] block, guarded by
    [except Exception: ...], which falls through to the implicit
    [return None]. *)
Definition delete_record_body (record_name : string) : PyM CsrWorld (option bool) :=
  filter_by_name record_name 1 ;;;
  com_unit com GetDeleteRowSet ;;;
  com_unit com (DeleteRow 0) ;;;
  res <- com_bool com Commit ;;
  py_ret (Some res).

Definition delete_record (record_name : string) : PyM CsrWorld (option bool) :=
  py_try (delete_record_body record_name) (fun _ => py_ret None).

Definition DUPLICATE_HRESULT : Z := -2147483617.

(** [Csr.add_record]: the body of its [try] block, then the [except
    com_error] handler; a duplicate record is translated and every other
    [com_error] re-raised by the bare [raise]. *)
Definition add_record_body (record_name : string) (package : list (string * string))
  : PyM CsrWorld bool :=
  com_unit com (GetAddRowSet 1) ;;;
  com_unit com (ModifyRow 0 0 record_name) ;;;
  com_unit com (ModifyRowDict 0 package) ;;;
  res <- com_bool com Commit ;;
  py_ret res.

Definition add_record (record_name : string) (package : list (string * string))
  : PyM CsrWorld bool :=
  py_try
    (add_record_body record_name package)
    (fun e => match e with
              | ComError hresult _ =>
                  if Z.eqb hresult DUPLICATE_HRESULT
                  then py_raise (CmcError "Record already exists")
                  else py_raise e
              | _ => py_raise e
              end).
End Csr.

(** [get_csr]: [Cmc] comes from the module [cmc_db], so its constructor
    and its [get_cursor] are parameters, over any state [W]. *)
Section GetCsr.
Context {W : Type}.
Variable Cmc_new : string -> PyM W nat.
Variable Cmc_get_cursor : nat -> string -> PyM W nat.

(** The [Csr] object wraps the [CsrCmc] cursor it is given. *)
Record Csr := { _cursor_cmc : nat }.

Definition get_csr (table_name cmc_name : string) : PyM W (option Csr) :=
  py_try
    (cmc <- Cmc_new cmc_name ;;
     csr_cmc <- Cmc_get_cursor cmc table_name ;;
     py_ret (Some {| _cursor_cmc := csr_cmc |}))
    (fun _ => py_ret None).
End GetCsr.
End Csr.

(** ** pycmc_types.py: FilterArray *)

(** [FilterArray] as pycmc_types defines it: its [filters] dict. *)
Record FilterArray := { fa_dict : gmap Z CmcFilter }.

(** The dict comprehension [{i: fil for i, fil in enumerate(filters, start)}],
    inserting in the order of enumeration. *)
Fixpoint enumerate_into (i : Z) (fs : list CmcFilter) (d : gmap Z CmcFilter)
  : gmap Z CmcFilter :=
  match fs with
  | [] => d
  | fil :: rest => enumerate_into (i + 1) rest (<[i := fil]> d)
  end.

(** [FilterArray.from_filters], over the tuple of its arguments *)
Definition from_filters (filters : list CmcFilter) : FilterArray :=
  {| fa_dict := enumerate_into 1 filters ∅ |}.

(** ** cursor_v2.py: the [CursorAPI] *)

Inductive CursorType := CATEGORY | VIEW | OTHER_CURSOR_TYPE (v : Z).

(** A [FilterArray] object as the cursor holds it.  Its [filters] attribute
    is a reference to a dict in the heap of the state: [copy()] (pydantic's
    shallow copy) yields a new object whose [filters] is the same dict.
    [others] stands for the remaining fields (sorts, logic), which the code
    reads but never mutates. *)
Record FilterArrayObj := { filters : nat; others : nat }.

Record CursorAPI := {
  cursor_wrapper : nat;
  mode : CursorType;
  csrname : string;
  filter_array : option FilterArrayObj;
  (** the instance's cached value of the [cached_property] [pk_label] *)
  pk_label_cache : option string
}.

Record CursorWorld := {
  api : CursorAPI;
  (** the heap of [filters] dicts *)
  dicts : gmap nat (gmap Z CmcFilter);
  cw_log : list ComCall
}.

#[global] Instance CursorWorld_log : HasLog CursorWorld :=
  {| get_log := cw_log;
     set_log := fun h w => {| api := api w; dicts := dicts w; cw_log := h |} |}.

Definition set_api (a : CursorAPI) (w : CursorWorld) : CursorWorld :=
  {| api := a; dicts := dicts w; cw_log := cw_log w |}.

Definition with_filter_array (o : option FilterArrayObj) (a : CursorAPI) : CursorAPI :=
  {| cursor_wrapper := cursor_wrapper a; mode := mode a; csrname := csrname a;
     filter_array := o; pk_label_cache := pk_label_cache a |}.

(** [self.filter_array = o] *)
Definition assign_filter_array (o : option FilterArrayObj) : PyM CursorWorld unit :=
  fun w => (Ok tt, set_api (with_filter_array o (api w)) w).

(** [fil.copy()]: a new object with the same field values. *)
Definition fa_copy (o : FilterArrayObj) : FilterArrayObj :=
  {| filters := filters o; others := others o |}.

Record MoreAvailable := { n_more : Z }.

(** [Pagination] lives in a version of pycmc_types that is not in this tree;
    [_read_rows] only reads its [offset], [limit] and [end] attributes,
    which are therefore left arbitrary. *)
Record Pagination := { offset : Z; limit : option Z; end_ : Z }.

Inductive Yielded := YRow (row : Row) | YMore (m : MoreAvailable).

Module CursorV2.
Section CursorV2.
Variable com : list ComCall -> ComCall -> Reply.
(** The [FilterArray] of cursor_v2 comes from the module [filters], which
    is not in this tree: the strings and texts it renders from its state
    are parameters.  [sort_text] is [Some view_sort_text] when [sorts] is
    truthy, [logic_text] is [Some sort_logic_text] when [logic] is. *)
Variable filter_strs : FilterArrayObj -> gmap Z CmcFilter -> list string.
Variable sort_text : FilterArrayObj -> gmap Z CmcFilter -> option string.
Variable logic_text : FilterArrayObj -> gmap Z CmcFilter -> option string.

Definition row_count : PyM CursorWorld Z := com_int com RowCount.
Definition category : PyM CursorWorld string := com_str com Category.

(** [pk_label], a [cached_property]. *)
Definition pk_label : PyM CursorWorld string :=
  fun w => match pk_label_cache (api w) with
           | Some l => (Ok l, w)
           | None =>
               (com_unit com (GetQueryRowSet (Some 1)) ;;;
                l <- com_str com (ColumnLabel 0) ;;
                (fun w' => let a := api w' in
                  (Ok l, set_api {| cursor_wrapper := cursor_wrapper a; mode := mode a;
                                    csrname := csrname a; filter_array := filter_array a;
                                    pk_label_cache := Some l |} w'))) w
           end.

Fixpoint com_each (cs : list ComCall) : PyM CursorWorld unit :=
  match cs with
  | [] => py_ret tt
  | c :: rest => com_unit com c ;;; com_each rest
  end.

Definition dict_of (o : FilterArrayObj) (w : CursorWorld) : gmap Z CmcFilter :=
  default ∅ (dicts w !! filters o).

(** [CursorAPI.filter_by_array]; the f-string of the log message reads
    [row_count] and [category]. *)
Definition filter_by_array : PyM CursorWorld unit :=
  fun w =>
    match filter_array (api w) with
    | None => (Raise (AttributeError "filter_strs"), w)
    | Some fa =>
        let d := dict_of fa w in
        (com_each (map SetFilter (filter_strs fa d)) ;;;
         match sort_text fa d with
         | Some t => com_unit com (SetSort t) | None => py_ret tt end ;;;
         match logic_text fa d with
         | Some t => com_unit com (SetFilterLogic t) | None => py_ret tt end ;;;
         _ <- row_count ;;
         _ <- category ;;
         py_ret tt) w
    end.

(** [with self.temporary_filter(fil_array): body] *)
Definition temporary_filter {A} (fil_array : option FilterArrayObj)
  (body : PyM CursorWorld A) : PyM CursorWorld A :=
  fun w =>
    let og_filter := match filter_array (api w) with
                     | Some fa => Some (fa_copy fa)
                     | None => None
                     end in
    (assign_filter_array fil_array ;;;
     py_finally (filter_by_array ;;; body) (assign_filter_array og_filter)) w.

(** [CursorAPI.clear_filter(slot)] *)
Definition clear_filter (slot : Z) : PyM CursorWorld unit :=
  com_unit com (SetFilter ("[ViewFilter(" ++ py_int_str slot ++ ",Clear)]")) ;;;
  fun w =>
    match filter_array (api w) with
    | None => (Raise (AttributeError "filters"), w)
    | Some fa =>
        (Ok tt, {| api := api w; dicts := alter (delete slot) (filters fa) (dicts w);
                   cw_log := cw_log w |})
    end.

(** [CursorAPI.clear_all_filters]: the list comprehension over
    [range(1, 9)], then [self.filter_array = None]. *)
Definition clear_all_filters : PyM CursorWorld unit :=
  clear_filter 1 ;;; clear_filter 2 ;;; clear_filter 3 ;;; clear_filter 4 ;;;
  clear_filter 5 ;;; clear_filter 6 ;;; clear_filter 7 ;;; clear_filter 8 ;;;
  assign_filter_array None.

(** [CursorAPI.add_category_to_dict] *)
Definition add_category_to_dict (row : Row) : PyM CursorWorld Row :=
  c <- category ;; py_ret (<["category" := c]> row).

(** The [for] loop of [_read_rows]; the debug message reads [category]
    and [pk_label]. *)
Fixpoint yield_rows (with_category : bool) (rows : list Row)
  : PyM CursorWorld (list Yielded) :=
  match rows with
  | [] => py_ret []
  | row :: rest =>
      row' <- (if with_category then add_category_to_dict row else py_ret row) ;;
      _ <- category ;;
      _ <- pk_label ;;
      ys <- yield_rows with_category rest ;;
      py_ret (YRow row' :: ys)
  end.

(** The [with filter_manager:] block of [CursorAPI._read_rows]. *)
Definition read_rows_block (with_category : bool) (pagination : Pagination)
  : PyM CursorWorld (list Yielded) :=
  rc <- row_count ;;
  let rows_left := rc - end_ pagination in
  com_unit com (GetQueryRowSet (limit pagination)) ;;;
  rows <- com_rows com RowSetRows ;;
  ys <- yield_rows with_category rows ;;
  if Z.ltb 0 rows_left
  then (_ <- category ;; py_ret (ys ++ [YMore {| n_more := rows_left |}])%list)
  else py_ret ys.

(** [CursorAPI._read_rows], run to exhaustion: the list of the values it
    yields.  [filter_manager] is [temporary_filter(filter_array)] when a
    filter array is given and a null context otherwise; the seek happens
    before the manager is entered. *)
Definition _read_rows (with_category : bool) (pagination : Pagination)
  (fil : option FilterArrayObj) : PyM CursorWorld (list Yielded) :=
  let filter_manager : PyM CursorWorld (list Yielded) -> PyM CursorWorld (list Yielded) :=
    match fil with
    | Some fa => temporary_filter (Some fa)
    | None => fun body => body
    end in
  (if Z.eqb (offset pagination) 0 then py_ret tt
   else com_unit com (SeekRow CURRENT (offset pagination))) ;;;
  filter_manager (read_rows_block with_category pagination).
End CursorV2.
End CursorV2.

(** ** Rendering of exceptions *)

Definition newline : string := String (Ascii.ascii_of_nat 10) EmptyString.

(** A lowercase hexadecimal digit. *)
Definition hex_digit (n : nat) : string :=
  String (Ascii.ascii_of_nat (if Nat.ltb n 10 then 48 + n else 87 + n)) EmptyString.

Fixpoint str_has (n : nat) (s : string) : bool :=
  match s with
  | EmptyString => false
  | String c rest => Nat.eqb (Ascii.nat_of_ascii c) n || str_has n rest
  end.

(** The characters of [repr(s)] between its quotes [q]: the quote and the
    backslash escaped, tab, newline and carriage return as [\t], [\n],
    [\r], the other control characters as [\xhh]; a string is its UTF-8
    bytes, and the characters outside ASCII are taken to be printable. *)
Fixpoint repr_chars (q : nat) (s : string) : string :=
  match s with
  | EmptyString => EmptyString
  | String c rest =>
      let n := Ascii.nat_of_ascii c in
      (if Nat.eqb n q || Nat.eqb n 92 then String (Ascii.ascii_of_nat 92) (String c EmptyString)
       else if Nat.eqb n 9 then "\t"
       else if Nat.eqb n 10 then "\n"
       else if Nat.eqb n 13 then "\r"
       else if Nat.ltb n 32 || Nat.eqb n 127
       then "\x" ++ hex_digit (Nat.div n 16) ++ hex_digit (Nat.modulo n 16)
       else String c EmptyString) ++ repr_chars q rest
  end.

(** Python's [repr] of a [str]: in double quotes when it contains a single
    quote and no double quote, in single quotes otherwise. *)
Definition py_str_repr (s : string) : string :=
  let q := if (str_has 39 s && negb (str_has 34 s))%bool then 34%nat else 39%nat in
  String (Ascii.ascii_of_nat q) (repr_chars q s ++ String (Ascii.ascii_of_nat q) EmptyString).

(** [str(e)] of the [pywintypes.com_error] that [Dispatch] raises when the
    COM object cannot be created: the tuple of its arguments
    [(hresult, strerror, excepinfo, argerror)], the last two [None] for a
    creation failure. *)
Definition com_error_str (hresult : Z) (msg : string) : string :=
  "(" ++ py_int_str hresult ++ ", " ++ py_str_repr msg ++ ", None, None)".

Definition MISSING_DB_HRESULT : Z := -2147221005.

(** The message of the missing-database [CmcError]. *)
Definition missing_db_msg (name : string) : string :=
  "Db Name " ++ dq ++ name ++ dq ++ " does not exist - connection failed".

(** ** api/db_api.py: the cached [CmcConnection] and its subclass [Cmc] *)

Inductive ConnClass := CmcConnectionCls | CmcCls.

(** [isinstance(obj, cls)]: [Cmc] is a subclass of [CmcConnection]. *)
Definition isinstance (c cls : ConnClass) : bool :=
  match c, cls with
  | CmcConnectionCls, CmcConnectionCls => true
  | CmcCls, _ => true
  | CmcConnectionCls, CmcCls => false
  end.

(** An instance: its class and its attributes ([None] when not set). *)
Record ConnObj := {
  obj_class : ConnClass;
  _initialized : bool;
  db_name : option string;
  _cmc : option nat
}.

Record ConnWorld := {
  (** the class attribute [CmcConnection.connections], shared with [Cmc] *)
  connections : gmap string nat;
  objs : gmap nat ConnObj;
  next_id : nat;
  conn_log : list ComCall
}.

#[global] Instance ConnWorld_log : HasLog ConnWorld :=
  {| get_log := conn_log;
     set_log := fun h w => {| connections := connections w; objs := objs w;
                              next_id := next_id w; conn_log := h |} |}.

Definition set_obj (o : nat) (ob : ConnObj) : PyM ConnWorld unit :=
  fun w => (Ok tt, {| connections := connections w; objs := <[o := ob]> (objs w);
                      next_id := next_id w; conn_log := conn_log w |}).

Definition get_obj (o : nat) : PyM ConnWorld ConnObj :=
  fun w => match objs w !! o with
           | Some ob => (Ok ob, w)
           | None => (Raise (AttributeError "__dict__"), w)
           end.

Module DbApi.
Section DbApi.
Variable com : list ComCall -> ComCall -> Reply.

(** [CmcConnection.__new__] *)
Definition __new__ (cls : ConnClass) (commence_instance : string) : PyM ConnWorld nat :=
  fun w =>
    match connections w !! commence_instance with
    | Some o => (Ok o, w)
    | None =>
        let o := next_id w in
        (Ok o, {| connections := <[commence_instance := o]> (connections w);
                  objs := <[o := {| obj_class := cls; _initialized := false;
                                    db_name := None; _cmc := None |}]> (objs w);
                  next_id := S o; conn_log := conn_log w |})
    end.

(** [CmcConnection.__init__] *)
Definition __init__ (self : nat) (commence_instance : string) : PyM ConnWorld unit :=
  ob <- get_obj self ;;
  if _initialized ob then py_ret tt else
  set_obj self {| obj_class := obj_class ob; _initialized := true;
                  db_name := Some commence_instance; _cmc := _cmc ob |} ;;;
  py_try
    (h <- com_obj com (Dispatch commence_instance) ;;
     ob' <- get_obj self ;;
     set_obj self {| obj_class := obj_class ob'; _initialized := _initialized ob';
                     db_name := db_name ob'; _cmc := Some h |})
    (fun e => match e with
              | ComError hresult msg =>
                  if Z.eqb hresult MISSING_DB_HRESULT
                  then py_raise (CmcError (missing_db_msg commence_instance))
                  else py_raise (CmcError ("Error connecting to " ++ commence_instance
                                 ++ ". Is Commence Running?" ++ newline
                                 ++ com_error_str hresult msg))
              | _ => py_raise e
              end).

(** [cls(commence_instance)]: [type.__call__] runs [__new__], then
    [__init__] when the object returned is an instance of [cls]. *)
Definition construct (cls : ConnClass) (commence_instance : string) : PyM ConnWorld nat :=
  o <- __new__ cls commence_instance ;;
  ob <- get_obj o ;;
  (if isinstance (obj_class ob) cls then __init__ o commence_instance else py_ret tt) ;;;
  py_ret o.
End DbApi.
End DbApi.

(** Number of [Dispatch name] calls in a history. *)
Definition is_dispatch_of (name : string) (c : ComCall) : bool :=
  match c with Dispatch n => String.eqb n name | _ => false end.
Definition dispatch_count (name : string) (h : list ComCall) : nat :=
  length (List.filter (is_dispatch_of name) h).

(** ** wrapper/new.py: [CmcAPI] and its [CmcConnection] *)

(** [OptionFlag] and the values of the enums come from [cmc_enums], which
    is not in this tree; [CATEGORY] and [VIEW] are the modes 0 and 1 that
    [get_cursor] checks for. *)
Inductive OptionFlag := PILOT | INTERNET | OTHER_FLAG (v : Z).

Definition CursorType_value (m : CursorType) : Z :=
  match m with CATEGORY => 0 | VIEW => 1 | OTHER_CURSOR_TYPE v => v end.

(** An instance of wrapper/new.py's [CmcConnection]; [None] marks an
    attribute not yet assigned. *)
Record NewConnObj := {
  n_db_name : option string;
  cursors : option (gmap (option string) nat);
  n_cmc : option nat
}.

Record NewWorld := {
  (** the class attribute [CmcAPI.connections] *)
  api_connections : gmap string nat;
  nobjs : gmap nat NewConnObj;
  nnext : nat;
  n_log : list ComCall
}.

#[global] Instance NewWorld_log : HasLog NewWorld :=
  {| get_log := n_log;
     set_log := fun h w => {| api_connections := api_connections w; nobjs := nobjs w;
                              nnext := nnext w; n_log := h |} |}.

Definition get_nobj (o : nat) : PyM NewWorld NewConnObj :=
  fun w => match nobjs w !! o with
           | Some ob => (Ok ob, w)
           | None => (Raise (AttributeError "__dict__"), w)
           end.

Definition set_nobj (o : nat) (ob : NewConnObj) : PyM NewWorld unit :=
  fun w => (Ok tt, {| api_connections := api_connections w; nobjs := <[o := ob]> (nobjs w);
                      nnext := nnext w; n_log := n_log w |}).

Module WrapperNew.
Section WrapperNew.
Variable com : list ComCall -> ComCall -> Reply.
Variable OptionFlag_value : OptionFlag -> Z.

Definition is_valid_flag (f : OptionFlag) : bool :=
  match f with PILOT | INTERNET => true | OTHER_FLAG _ => false end.

Fixpoint check_flags (fl : list OptionFlag) : PyM NewWorld unit :=
  match fl with
  | [] => py_ret tt
  | f :: rest => if is_valid_flag f then check_flags rest
                 else py_raise (ValueError "Invalid flag")
  end.

(** [CmcConnection.get_cursor(name, mode, flags)]; [flags] is the list of
    flags, the empty list standing for [None]. *)
Definition get_cursor (self : nat) (name : option string) (mode : CursorType)
  (flags : list OptionFlag) : PyM NewWorld nat :=
  ob <- get_nobj self ;;
  match cursors ob with
  | None => py_raise (AttributeError "cursors")
  | Some cs =>
  match cs !! name with
  | Some csr => py_ret csr
  | None =>
  flags_str <- (match flags with
   | [] => py_ret "0"
   | _ => check_flags flags ;;;
          py_ret (String.concat ", " (map (fun f => py_int_str (OptionFlag_value f)) flags))
   end) ;;
  let m := CursorType_value mode in
  (if (Z.eqb m 0 || Z.eqb m 1)%bool
   then match name with
        | None => py_raise (ValueError "requires name param to be set")
        | Some _ => py_ret tt
        end
   else py_ret tt) ;;;
  ob1 <- get_nobj self ;;
  match n_cmc ob1 with
  | None => py_raise (AttributeError "_cmc")
  | Some _ =>
      csr <- com_obj com (GetCursor m name flags_str) ;;
      ob2 <- get_nobj self ;;
      set_nobj self {| n_db_name := n_db_name ob2;
                       cursors := Some (<[name := csr]> (default ∅ (cursors ob2)));
                       n_cmc := n_cmc ob2 |} ;;;
      py_ret csr
  end
  end
  end.

(** The dict comprehension [{name: self.get_cursor(name) for name in
    cursor_names}], evaluated before it is assigned to [self.cursors]. *)
Fixpoint cursors_comprehension (self : nat) (cursor_names : list string)
  : PyM NewWorld (gmap (option string) nat) :=
  match cursor_names with
  | [] => py_ret ∅
  | name :: rest =>
      csr <- get_cursor self (Some name) CATEGORY [] ;;
      d <- cursors_comprehension self rest ;;
      py_ret (<[Some name := csr]> d)
  end.

(** [CmcConnection.__init__(db_name, cursor_names)]; an omitted or [None]
    [cursor_names] is the empty list. *)
Definition __init__ (self : nat) (db_name : string) (cursor_names : list string)
  : PyM NewWorld unit :=
  ob <- get_nobj self ;;
  set_nobj self {| n_db_name := Some db_name; cursors := cursors ob; n_cmc := n_cmc ob |} ;;;
  d <- cursors_comprehension self cursor_names ;;
  ob1 <- get_nobj self ;;
  set_nobj self {| n_db_name := n_db_name ob1; cursors := Some d; n_cmc := n_cmc ob1 |} ;;;
  py_try
    (h <- com_obj com (Dispatch db_name) ;;
     ob2 <- get_nobj self ;;
     set_nobj self {| n_db_name := n_db_name ob2; cursors := cursors ob2; n_cmc := Some h |})
    (fun e => match e with
              | ComError hresult _ =>
                  if Z.eqb hresult MISSING_DB_HRESULT
                  then py_raise (CmcError (missing_db_msg db_name))
                  else py_raise e
              | _ => py_raise e
              end).

(** [CmcConnection(db_name, cursor_names)]: a fresh instance, then
    [__init__]. *)
Definition CmcConnection (db_name : string) (cursor_names : list string)
  : PyM NewWorld nat :=
  fun w =>
    let o := nnext w in
    let w1 := {| api_connections := api_connections w;
                 nobjs := <[o := {| n_db_name := None; cursors := None; n_cmc := None |}]> (nobjs w);
                 nnext := S o; n_log := n_log w |} in
    (__init__ o db_name cursor_names ;;; py_ret o) w1.

(** [CmcAPI.__new__(cmc_name, cursor_names)]: it returns a [CmcConnection],
    not a [CmcAPI], so no [__init__] follows. *)
Definition CmcAPI (cmc_name : string) (cursor_names : list string) : PyM NewWorld nat :=
  fun w =>
    match api_connections w !! cmc_name with
    | Some conn => (Ok conn, w)
    | None =>
        (conn <- CmcConnection cmc_name cursor_names ;;
         (fun w' => (Ok conn, {| api_connections := <[cmc_name := conn]> (api_connections w');
                                 nobjs := nobjs w'; nnext := nnext w'; n_log := n_log w' |}))) w
    end.
End WrapperNew.
End WrapperNew.

(** ** api/cmc_csr.py: the other operations of [Csr] *)

Module CsrOps.
Section CsrOps.
Variable com : list ComCall -> ComCall -> Reply.
(** [row_set.get_column_index(key)] of the cursor wrapper, which is not in
    this tree. *)
Variable get_column_index : string -> PyM CsrWorld Z.
(** [cmc_filter.filter_str(slot)] of the [CmcFilter] of [cmc_types], which
    is not in this tree. *)
Variable filter_str : CmcFilter -> Z -> string.

(** The loop of [Csr.edit_record] over [package.items()]; a value stands
    for its [str]. *)
Fixpoint modify_fields (package : list (string * string)) : PyM CsrWorld unit :=
  match package with
  | [] => py_ret tt
  | (key, value) :: rest =>
      py_try (col_idx <- get_column_index key ;;
              com_unit com (ModifyRow 0 col_idx value))
             (fun _ => py_raise (CmcError ("Could not modify " ++ key ++ " to " ++ value))) ;;;
      modify_fields rest
  end.

(** [Csr.edit_record(name, package)] *)
Definition edit_record (name : string) (package : list (string * string))
  : PyM CsrWorld unit :=
  Csr.filter_by_name com name 1 ;;;
  com_unit com GetEditRowSet ;;;
  modify_fields package ;;;
  com_unit com Commit.

(** [Csr.filter(cmc_filter, slot)], through [filter_by_str]. *)
Definition filter (cmc_filter : CmcFilter) (slot : Z) : PyM CsrWorld unit :=
  com_unit com (SetFilter (filter_str cmc_filter slot)).

(** The loop [for i, fil in enumerate(filters, start=i)]. *)
Fixpoint filter_from (i : Z) (filters : list CmcFilter) : PyM CsrWorld unit :=
  match filters with
  | [] => py_ret tt
  | fil :: rest => filter fil i ;;; filter_from (i + 1) rest
  end.

(** [Csr.set_filters(filters, get_all)] *)
Definition set_filters (filters : list CmcFilter) (get_all : bool)
  : PyM CsrWorld (option (list Row)) :=
  filter_from 1 filters ;;;
  if get_all then (rs <- Csr.get_records com None ;; py_ret (Some rs)) else py_ret None.
End CsrOps.
End CsrOps.

(** ** api/db_api.py: [CmcConnection.get_cursor] *)

Module DbApiCursor.
Section DbApiCursor.
Variable com : list ComCall -> ComCall -> Reply.
(** The values and the [str] of the [OptionFlag] members; [enums_cmc] is
    not in this tree. *)
Variable OptionFlag_value : OptionFlag -> Z.
Variable OptionFlag_str : OptionFlag -> string.
(** [str(e)] of a caught [com_error]: pywintypes renders the tuple of its
    four arguments [(hresult, strerror, excepinfo, argerror)], and the
    [excepinfo] of an error raised by a method call such as [GetCursor] is
    not recorded by [ComError]; the text is left open. *)
Variable str_com_error : PyExc -> string.

Fixpoint check_flags (fl : list OptionFlag) : PyM ConnWorld unit :=
  match fl with
  | [] => py_ret tt
  | f :: rest => if WrapperNew.is_valid_flag f then check_flags rest
                 else py_raise (ValueError ("Invalid flag: " ++ OptionFlag_str f))
  end.

(** [CursorType(mode).name] for the modes 0 and 1. *)
Definition CursorType_name (m : Z) : string := if Z.eqb m 0 then "CATEGORY" else "VIEW".

(** [str(name)] of an optional string. *)
Definition py_opt_str (o : option string) : string :=
  match o with Some s => s | None => "None" end.

(** [CmcConnection.get_cursor(name, mode, flags)]; [flags] is the list of
    flags, the empty list standing for [None]. *)
Definition get_cursor (self : nat) (name : option string) (mode : CursorType)
  (flags : list OptionFlag) : PyM ConnWorld nat :=
  flags_str <- (match flags with
   | [] => py_ret "0"
   | _ => check_flags flags ;;;
          py_ret (String.concat ", " (map (fun f => py_int_str (OptionFlag_value f)) flags))
   end) ;;
  let m := CursorType_value mode in
  (if (Z.eqb m 0 || Z.eqb m 1)%bool
   then match name with
        | None => py_raise (ValueError ("Mode " ++ py_int_str m ++ " (" ++ dq
                     ++ CursorType_name m ++ dq ++ ") requires name param to be set"))
        | Some _ => py_ret tt
        end
   else py_ret tt) ;;;
  py_try
    (ob <- get_obj self ;;
     match _cmc ob with
     | None => py_raise (AttributeError "_cmc")
     | Some _ => com_obj com (GetCursor m name flags_str)
     end)
    (fun e => match e with
              | ComError _ _ =>
                  py_raise (CmcError ("Error creating cursor for " ++ py_opt_str name
                                      ++ ": " ++ str_com_error e))
              | _ => py_raise e
              end).

End DbApiCursor.
End DbApiCursor.

(** ** cursor_v2.py: primary keys and filtered reads *)

Module CursorV2Pk.
Section CursorV2Pk.
Variable com : list ComCall -> ComCall -> Reply.
Variable filter_strs : FilterArrayObj -> gmap Z CmcFilter -> list string.
Variable sort_text : FilterArrayObj -> gmap Z CmcFilter -> option string.
Variable logic_text : FilterArrayObj -> gmap Z CmcFilter -> option string.
(** [FilterArray.from_filters(FieldFilter(column=label, condition=EQUAL,
    value=pk))]: [filters] is not in this tree. *)
Variable pk_filter_array : string -> string -> FilterArrayObj.
(** [PyCommenceExistsError(msg)]: [exceptions] is not in this tree. *)
Variable PyCommenceExistsError : string -> PyExc.

(** [CursorAPI.pk_filter(pk)] *)
Definition pk_filter (pk : string) : PyM CursorWorld FilterArrayObj :=
  label <- CursorV2.pk_label com ;;
  py_ret (pk_filter_array label pk).

(** [CursorAPI.pk_exists(pk)] *)
Definition pk_exists (pk : string) : PyM CursorWorld bool :=
  fa <- pk_filter pk ;;
  CursorV2.temporary_filter com filter_strs sort_text logic_text (Some fa)
    (rc <- CursorV2.row_count com ;; py_ret (Z.ltb 0 rc)).

(** [dict.get(key)] on a dict given by its items. *)
Definition dict_get (key : string) (d : list (string * string)) : option string :=
  option_map snd (List.find (fun kv => String.eqb (fst kv) key) d).

(** [CursorAPI._create_row(create_pkg)] *)
Definition _create_row (create_pkg : list (string * string)) : PyM CursorWorld unit :=
  label <- CursorV2.pk_label com ;;
  let pkg_pk := default EmptyString (dict_get label create_pkg) in
  if negb (str_truthy pkg_pk)
  then (label' <- CursorV2.pk_label com ;;
        py_raise (ValueError ("Primary key " ++ label' ++ " not provided in create_pkg.")))
  else
    (exists_ <- pk_exists pkg_pk ;;
     if exists_
     then py_raise (PyCommenceExistsError ("Primary key " ++ pkg_pk ++ " already exists."))
     else com_unit com (GetAddRowSet 1) ;;;
          com_unit com (ModifyRowDict 0 create_pkg) ;;;
          com_unit com Commit).

(** [CursorAPI._read_rows_filtered(filter_array, with_category,
    pagination)], run to exhaustion; [None] is the default [pagination]. *)
Definition _read_rows_filtered (filter_array : FilterArrayObj) (with_category : bool)
  (pagination : option Pagination) : PyM CursorWorld (list Yielded) :=
  CursorV2.temporary_filter com filter_strs sort_text logic_text (Some filter_array)
    (match pagination with
     | None => py_raise (AttributeError "offset")
     | Some pg => CursorV2._read_rows com filter_strs sort_text logic_text
                    with_category pg None
     end).
End CursorV2Pk.
End CursorV2Pk.

(** ** pycmc_types.get_cmc_date *)

Module CmcDate.
Section CmcDate.
Variable date datetime : Type.
Variable datetime_date : datetime -> date.
(** [datetime.strptime(v, CmcDateFormat).date()] and
    [datetime.fromisoformat(v).date()], which may raise. *)
Variable strptime_date : string -> Result date.
Variable fromisoformat_date : string -> Result date.



End CmcDate.
End CmcDate.

(** ** api/csr_handler.py: [CmcHandler.records_by_field] *)

Inductive EmptyKind := EmptyIgnore | EmptyRaise.

Module CsrHandler.
Section CsrHandler.
Context {W : Type}.
(** [self.records()]: [get_query_rowset(None).get_row_dicts()] of the
    [Csr] of [csr_api_handled], which is not in this tree. *)
Variable records : PyM W (list Row).

(** The body of [with self.csr.temporary_filter_fields(...)] in
    [records_by_field]; [max_rtn] is [None] or an int. *)
Definition records_by_field_body (field_name value : string) (max_rtn : option Z)
  (empty : EmptyKind) : PyM W (list Row) :=
  rs <- records ;;
  if (match rs with [] => true | _ => false end
      && match empty with EmptyRaise => true | EmptyIgnore => false end)%bool
  then py_raise (CmcError ("No record found for " ++ field_name ++ " " ++ value))
  else match max_rtn with
       | Some m =>
           if (negb (Z.eqb m 0) && Z.ltb m (Z.of_nat (length rs)))%bool
           then py_raise (CmcError ("Expected max " ++ py_int_str m ++ " records, got "
                                    ++ py_int_str (Z.of_nat (length rs))))
           else py_ret rs
       | None => py_ret rs
       end.
End CsrHandler.
End CsrHandler.

(** * Properties *)

Lemma string_app_assoc (a b c : string) : (a ++ b) ++ c = a ++ (b ++ c).
Proof. induction a as [|x a IH]; [reflexivity | exact (f_equal (String x) IH)]. Qed.

Example filter_str2_sample :
  filter_str2 {| cmc_col := "Name"; f_type := F; value := "Bob";
                 condition := EQUAL; not_flag := NotFlagEmpty |} 2
  = "[ViewFilter(2, F, , Name, Equal To, Bob)]".
Proof. reflexivity. Qed.

Example filter_by_name_sample :
  Csr.filter_by_name (fun _ _ => RNone) "Bob" 1 {| csr_log := [] |}
  = (Ok tt, {| csr_log := [SetFilter ("[ViewFilter(1, F,, Name, Equal To, " ++ dq ++ "Bob" ++ dq ++ ")]")] |}).
Proof. reflexivity. Qed.

(** C1: the ViewFilter strings.  [CmcFilter.filter_str2(slot)] renders
    [[ViewFilter(slot, f_type, not_flag, cmc_col, condition)]] for an empty
    value and inserts [", " + value] before [")]"] otherwise;
    [Csr.filter_by_field(field, condition, value, fslot)] makes exactly one
    COM call, [set_filter] of [[ViewFilter(fslot, F,, field, condition)]],
    with a comma, a space and the value in double quotes inserted before
    [")]"] for a non-empty value. *)
Theorem filter_strings_render :
  (forall col ft cond nf slot,
     filter_str2 {| cmc_col := col; f_type := ft; value := EmptyString;
                    condition := cond; not_flag := nf |} slot
     = "[ViewFilter(" ++ py_int_str slot ++ ", " ++ FilterType_str ft ++ ", "
       ++ NotFlagType_str nf ++ ", " ++ col ++ ", " ++ ConditionType_str cond ++ ")]")
  /\ (forall col ft a v cond nf slot,
     filter_str2 {| cmc_col := col; f_type := ft; value := String a v;
                    condition := cond; not_flag := nf |} slot
     = "[ViewFilter(" ++ py_int_str slot ++ ", " ++ FilterType_str ft ++ ", "
       ++ NotFlagType_str nf ++ ", " ++ col ++ ", " ++ ConditionType_str cond
       ++ ", " ++ String a v ++ ")]")
  /\ (forall com field cond fslot (s : CsrWorld),
     Csr.filter_by_field com field cond EmptyString fslot s
     = com_unit com (SetFilter ("[ViewFilter(" ++ py_int_str fslot ++ ", F,, "
                                ++ field ++ ", " ++ cond ++ ")]")) s)
  /\ (forall com field cond a v fslot (s : CsrWorld),
     Csr.filter_by_field com field cond (String a v) fslot s
     = com_unit com (SetFilter ("[ViewFilter(" ++ py_int_str fslot ++ ", F,, "
                                ++ field ++ ", " ++ cond ++ ", " ++ dq ++ String a v
                                ++ dq ++ ")]")) s).
Proof.
  repeat split; intros; unfold filter_str2, Csr.filter_by_field, Csr.field_filter_str; simpl str_truthy;
    cbv iota beta; rewrite ?string_app_assoc; reflexivity.
Qed.

(** ** Helpers on COM calls *)

Definition com_no_raise (r : Reply) : Prop :=
  match r with RRaise _ => False | _ => True end.

Lemma com_unit_no_raise {S} `{HasLog S} com c (s : S) :
  com_no_raise (com (get_log s) c) ->
  com_unit com c s = (Ok tt, set_log (get_log s ++ [c])%list s).
Proof.
  unfold com_unit, com_call, py_bind, py_ret, com_no_raise.
  destruct (com (get_log s) c); tauto.
Qed.

(** ** FilterArray.from_filters *)

Lemma enumerate_into_lookup (fs : list CmcFilter) :
  forall (k i : Z) (d : gmap Z CmcFilter),
  enumerate_into k fs d !! i
  = if (Z.leb k i && Z.ltb i (k + Z.of_nat (length fs)))%bool
    then fs !! Z.to_nat (i - k) else d !! i.
Proof.
  induction fs as [|f rest IH]; intros k i d; simpl.
  - case_eq (Z.leb k i && Z.ltb i (k + Z.of_nat 0))%bool; intro E; [|reflexivity].
    apply andb_prop in E as [E1 E2]. apply Z.leb_le in E1; apply Z.ltb_lt in E2; lia.
  - rewrite IH.
    destruct (decide (i = k)) as [->|Hne].
    + replace (Z.leb (k + 1) k) with false by (symmetry; apply Z.leb_gt; lia).
      replace (Z.leb k k) with true by (symmetry; apply Z.leb_le; lia).
      replace (Z.ltb k (k + Z.of_nat (S (length rest)))) with true
        by (symmetry; apply Z.ltb_lt; lia).
      simpl. rewrite lookup_insert_eq. replace (k - k) with 0 by lia. reflexivity.
    + rewrite lookup_insert_ne by congruence.
      destruct (Z.leb (k + 1) i && Z.ltb i (k + 1 + Z.of_nat (length rest)))%bool eqn:E.
      * apply andb_prop in E as [E1 E2].
        apply Z.leb_le in E1; apply Z.ltb_lt in E2.
        replace (Z.leb k i && Z.ltb i (k + Z.of_nat (S (length rest))))%bool with true.
        2:{ symmetry; apply andb_true_intro; split; [apply Z.leb_le | apply Z.ltb_lt]; lia. }
        replace (Z.to_nat (i - k)) with (S (Z.to_nat (i - (k + 1)))) by lia.
        reflexivity.
      * replace (Z.leb k i && Z.ltb i (k + Z.of_nat (S (length rest))))%bool with false.
        { reflexivity. }
        symmetry. apply andb_false_iff.
        apply andb_false_iff in E as [E|E];
          [apply Z.leb_gt in E | apply Z.ltb_ge in E].
        -- destruct (Z.leb k i) eqn:E'; [apply Z.leb_le in E'; right | left; reflexivity].
           apply Z.ltb_ge. lia.
        -- right. apply Z.ltb_ge. lia.
Qed.

(** ** CursorAPI.clear_filter / clear_all_filters *)

Definition clear_str (slot : Z) : string := "[ViewFilter(" ++ py_int_str slot ++ ",Clear)]".

(** The eight pops of [clear_all_filters] on the [filters] dict. *)
Definition clear_slots (d : gmap Z CmcFilter) : gmap Z CmcFilter :=
  delete 8 (delete 7 (delete 6 (delete 5 (delete 4 (delete 3 (delete 2 (delete 1 d))))))).

Lemma clear_filter_some (com : list ComCall -> ComCall -> Reply) (w : CursorWorld) fa slot :
  filter_array (api w) = Some fa ->
  com_no_raise (com (cw_log w) (SetFilter (clear_str slot))) ->
  CursorV2.clear_filter com slot w
  = (Ok tt, {| api := api w; dicts := alter (delete slot) (filters fa) (dicts w);
               cw_log := (cw_log w ++ [SetFilter (clear_str slot)])%list |}).
Proof.
  intros Hfa Hok. unfold CursorV2.clear_filter, py_bind at 1. fold (clear_str slot).
  rewrite (@com_unit_no_raise CursorWorld CursorWorld_log com (SetFilter (clear_str slot)) w Hok).
  simpl. rewrite Hfa. reflexivity.
Qed.

Lemma clear_all_filters_some (com : list ComCall -> ComCall -> Reply) (w : CursorWorld) fa :
  filter_array (api w) = Some fa ->
  (forall h s, com_no_raise (com h (SetFilter s))) ->
  CursorV2.clear_all_filters com w
  = (Ok tt, {| api := with_filter_array None (api w);
               dicts := alter clear_slots (filters fa) (dicts w);
               cw_log := (cw_log w ++ map (fun i => SetFilter (clear_str i))
                                        [1; 2; 3; 4; 5; 6; 7; 8])%list |}).
Proof.
  intros Hfa Hok. unfold CursorV2.clear_all_filters.
  do 8 (unfold py_bind at 1;
        erewrite clear_filter_some by (first [exact Hfa | apply Hok]);
        cbv beta iota).
  unfold assign_filter_array, set_api. cbn [api dicts cw_log].
  rewrite <- !app_assoc. unfold clear_slots. rewrite !alter_alter_eq.
  reflexivity.
Qed.

Lemma from_filters_lookup (fs : list CmcFilter) (i : Z) :
  fa_dict (from_filters fs) !! i = if Z.leb 1 i then fs !! Z.to_nat (i - 1) else None.
Proof.
  unfold from_filters; simpl. rewrite enumerate_into_lookup, lookup_empty.
  destruct (Z.leb 1 i) eqn:E1; simpl; [|reflexivity].
  destruct (Z.ltb i (1 + Z.of_nat (length fs))) eqn:E2; [reflexivity|].
  apply Z.ltb_ge in E2. symmetry. apply lookup_ge_None_2. lia.
Qed.

Lemma clear_slots_lookup (d : gmap Z CmcFilter) (k : Z) :
  clear_slots d !! k = if (Z.leb 1 k && Z.leb k 8)%bool then None else d !! k.
Proof.
  unfold clear_slots. rewrite !lookup_delete.
  repeat case_decide; subst; try reflexivity.
  destruct (Z.leb 1 k && Z.leb k 8)%bool eqn:E; [|reflexivity].
  apply andb_prop in E as [E1 E2]. apply Z.leb_le in E1, E2.
  exfalso. lia.
Qed.

(** A filter on the Name column. *)
Definition name_filter (v : string) : CmcFilter :=
  {| cmc_col := "Name"; f_type := F; value := v; condition := EQUAL;
     not_flag := NotFlagEmpty |}.

Example from_filters_sample :
  fa_dict (from_filters [name_filter "a"; name_filter "b"]) !! 2 = Some (name_filter "b").
Proof. reflexivity. Qed.

(** C2, counterexample: [FilterArray.from_filters] puts no bound of 8 on
    the slots; nine filters occupy the slots 1 to 9. *)
Lemma from_filters_ninth_slot :
  ~ (forall (fs : list CmcFilter) (i : Z) (f : CmcFilter),
       fa_dict (from_filters fs) !! i = Some f -> 1 <= i <= 8).
Proof.
  intros H.
  assert (H9 : 1 <= 9 <= 8).
  { apply (H (repeat (name_filter "x") 9) 9 (name_filter "x")). reflexivity. }
  lia.
Qed.

(** C2, as amended: [FilterArray.from_filters(f1, ..., fn)] puts filter
    [fi] in slot [i] for every [n], with no bound of 8; when the cursor
    holds a filter array and [set_filter] does not raise,
    [CursorAPI.clear_all_filters] sends [[ViewFilter(i,Clear)]] for
    [i = 1..8] in order, pops exactly the slots 1 to 8 from the filter
    array's dict, and sets [filter_array] to [None]. *)
Theorem filter_slots_amended (com : list ComCall -> ComCall -> Reply)
  (w : CursorWorld) (fa : FilterArrayObj)
  (Hfa : filter_array (api w) = Some fa)
  (Hok : forall h s, com_no_raise (com h (SetFilter s))) :
  (forall (fs : list CmcFilter) (i : Z),
     fa_dict (from_filters fs) !! i
     = if Z.leb 1 i then fs !! Z.to_nat (i - 1) else None)
  /\ CursorV2.clear_all_filters com w
     = (Ok tt, {| api := with_filter_array None (api w);
                  dicts := alter clear_slots (filters fa) (dicts w);
                  cw_log := (cw_log w ++ map (fun i => SetFilter (clear_str i))
                                           [1; 2; 3; 4; 5; 6; 7; 8])%list |})
  /\ (forall (d : gmap Z CmcFilter) (k : Z),
        clear_slots d !! k = if (Z.leb 1 k && Z.leb k 8)%bool then None else d !! k).
Proof.
  split; [exact from_filters_lookup|].
  split; [exact (clear_all_filters_some com w fa Hfa Hok)|].
  exact clear_slots_lookup.
Qed.

(** A cursor on the Contact category holding a filter array whose dict is
    at address 0. *)
Definition sample_api (fa : option FilterArrayObj) : CursorAPI :=
  {| cursor_wrapper := 0; mode := CATEGORY; csrname := "Contact";
     filter_array := fa; pk_label_cache := None |}.
Definition sample_fa : FilterArrayObj := {| filters := 0; others := 0 |}.
Definition sample_world : CursorWorld :=
  {| api := sample_api (Some sample_fa);
     dicts := {[0%nat := fa_dict (from_filters [name_filter "a"; name_filter "b"])]};
     cw_log := [] |}.
Definition quiet_com : list ComCall -> ComCall -> Reply := fun _ _ => RNone.

Lemma filter_slots_amended_witness :
  filter_array (api sample_world) = Some sample_fa
  /\ (forall h s, com_no_raise (quiet_com h (SetFilter s)))
  /\ CursorV2.clear_all_filters quiet_com sample_world
     = (Ok tt, {| api := with_filter_array None (api sample_world);
                  dicts := alter clear_slots (filters sample_fa) (dicts sample_world);
                  cw_log := (cw_log sample_world ++ map (fun i => SetFilter (clear_str i))
                                           [1; 2; 3; 4; 5; 6; 7; 8])%list |}).
Proof.
  split; [reflexivity|]. split; [intros; exact I|].
  apply (filter_slots_amended quiet_com sample_world sample_fa); [reflexivity | intros; exact I].
Defined.

(** ** COM error translation *)

(** A [com_error] raised by [Dispatch] when a connection is first made
    becomes a [CmcError] whose message depends on the hresult. *)
Lemma construct_dispatch_error (com : list ComCall -> ComCall -> Reply)
  (w : ConnWorld) cls name hr m :
  connections w !! name = None ->
  com (conn_log w) (Dispatch name) = RRaise (ComError hr m) ->
  fst (DbApi.construct com cls name w)
  = Raise (CmcError (if Z.eqb hr MISSING_DB_HRESULT then missing_db_msg name
                     else "Error connecting to " ++ name ++ ". Is Commence Running?"
                          ++ newline ++ com_error_str hr m)).
Proof.
  intros Hnew Hd.
  unfold DbApi.construct, py_bind at 1. unfold DbApi.__new__. rewrite Hnew.
  cbv beta iota. unfold py_bind at 1, get_obj at 1. cbn [objs].
  rewrite lookup_insert_eq. cbv beta iota. cbn [obj_class].
  replace (isinstance cls cls) with true by (destruct cls; reflexivity).
  unfold py_bind at 1. unfold DbApi.__init__.
  unfold py_bind at 1, get_obj at 1. cbn [objs]. rewrite lookup_insert_eq.
  cbv beta iota. cbn [_initialized].
  unfold py_bind at 1, set_obj at 1. cbv beta iota.
  unfold py_try at 1, py_bind at 1, com_obj, py_bind at 1, com_call.
  cbn [get_log ConnWorld_log conn_log]. rewrite Hd.
  destruct (Z.eqb hr MISSING_DB_HRESULT); reflexivity.
Qed.

Lemma add_record_translate (com : list ComCall -> ComCall -> Reply)
  name pkg (s : CsrWorld) :
  Csr.add_record com name pkg s
  = match Csr.add_record_body com name pkg s with
    | (Raise (ComError hr m), s') =>
        if Z.eqb hr Csr.DUPLICATE_HRESULT then (Raise (CmcError "Record already exists"), s')
        else (Raise (ComError hr m), s')
    | r => r
    end.
Proof.
  unfold Csr.add_record, py_try.
  destruct (Csr.add_record_body com name pkg s) as [[a|e] s']; [reflexivity|].
  destruct e as [| hr m | | |]; try reflexivity.
  destruct (Z.eqb hr Csr.DUPLICATE_HRESULT); reflexivity.
Qed.

(** The calls [add_record] makes before its commit. *)
Definition add_record_prefix (name : string) (pkg : list (string * string)) : list ComCall :=
  [GetAddRowSet 1; ModifyRow 0 0 name; ModifyRowDict 0 pkg].

Lemma add_record_body_commit_raise (com : list ComCall -> ComCall -> Reply)
  name pkg (s : CsrWorld) e :
  com_no_raise (com (csr_log s) (GetAddRowSet 1)) ->
  com_no_raise (com (csr_log s ++ [GetAddRowSet 1])%list (ModifyRow 0 0 name)) ->
  com_no_raise (com (csr_log s ++ [GetAddRowSet 1; ModifyRow 0 0 name])%list
                    (ModifyRowDict 0 pkg)) ->
  com (csr_log s ++ add_record_prefix name pkg)%list Commit = RRaise e ->
  fst (Csr.add_record_body com name pkg s) = Raise e.
Proof.
  intros H1 H2 H3 Hc. unfold Csr.add_record_body, py_bind at 1.
  rewrite (@com_unit_no_raise CsrWorld CsrWorld_log com _ s H1). cbv beta iota.
  cbn [set_log get_log CsrWorld_log].
  unfold py_bind at 1.
  rewrite (@com_unit_no_raise CsrWorld CsrWorld_log com _
             {| csr_log := (csr_log s ++ [GetAddRowSet 1])%list |} H2).
  cbv beta iota. cbn [set_log get_log CsrWorld_log csr_log].
  unfold py_bind at 1. rewrite <- app_assoc. cbn [app].
  rewrite (@com_unit_no_raise CsrWorld CsrWorld_log com _
             {| csr_log := (csr_log s ++ [GetAddRowSet 1; ModifyRow 0 0 name])%list |} H3).
  cbv beta iota. cbn [set_log get_log CsrWorld_log csr_log].
  unfold py_bind at 1, com_bool, py_bind at 1, com_call.
  cbn [get_log CsrWorld_log csr_log]. rewrite <- !app_assoc. cbn [app].
  unfold add_record_prefix in Hc. rewrite Hc. reflexivity.
Qed.

(** A server whose commits fail with a generic COM exception. *)
Definition commit_fails_com : list ComCall -> ComCall -> Reply :=
  fun _ c => match c with
             | Commit => RRaise (ComError (-2147352567) "Exception occurred.")
             | _ => RNone
             end.

(** C3, counterexample: a [com_error] other than the duplicate-record one,
    raised by the commit of [Csr.add_record], reaches the caller as the raw
    [com_error], not as a [CmcError]. *)
Lemma add_record_raw_com_error :
  fst (Csr.add_record commit_fails_com "Bob" [] {| csr_log := [] |})
    = Raise (ComError (-2147352567) "Exception occurred.")
  /\ ~ (exists msg, fst (Csr.add_record commit_fails_com "Bob" [] {| csr_log := [] |})
                    = Raise (CmcError msg)).
Proof.
  split; [reflexivity|]. intros [msg H]. vm_compute in H. discriminate H.
Qed.

(** C3, as amended: every [com_error] raised by [Dispatch] when a
    [CmcConnection] (or [Cmc]) of api/db_api.py is first constructed reaches
    the caller as a [CmcError]; [Csr.add_record] translates only the
    [com_error] with hresult -2147483617 (into [CmcError('Record already
    exists')]) and lets every other [com_error], and every other exception,
    propagate unchanged. *)
Theorem com_error_translation_amended (com : list ComCall -> ComCall -> Reply)
  (w : ConnWorld) (cls : ConnClass) (name : string) (hr : Z) (m : string)
  (Hnew : connections w !! name = None)
  (Hd : com (conn_log w) (Dispatch name) = RRaise (ComError hr m)) :
  (exists msg, fst (DbApi.construct com cls name w) = Raise (CmcError msg))
  /\ (forall (com' : list ComCall -> ComCall -> Reply) name' pkg (s : CsrWorld),
        Csr.add_record com' name' pkg s
        = match Csr.add_record_body com' name' pkg s with
          | (Raise (ComError hr' m'), s') =>
              if Z.eqb hr' Csr.DUPLICATE_HRESULT
              then (Raise (CmcError "Record already exists"), s')
              else (Raise (ComError hr' m'), s')
          | r => r
          end).
Proof.
  split.
  - eexists. exact (construct_dispatch_error com w cls name hr m Hnew Hd).
  - exact add_record_translate.
Qed.

Definition empty_conn_world : ConnWorld :=
  {| connections := ∅; objs := ∅; next_id := 0; conn_log := [] |}.

(** A server on which Commence is not registered. *)
Definition no_db_com : list ComCall -> ComCall -> Reply :=
  fun _ c => match c with
             | Dispatch _ => RRaise (ComError MISSING_DB_HRESULT "Invalid class string")
             | Commit => RRaise (ComError Csr.DUPLICATE_HRESULT "Exception occurred.")
             | _ => RNone
             end.

Lemma com_error_translation_amended_witness :
  connections empty_conn_world !! "Commence.DB" = None
  /\ no_db_com (conn_log empty_conn_world) (Dispatch "Commence.DB")
     = RRaise (ComError MISSING_DB_HRESULT "Invalid class string")
  /\ exists msg, fst (DbApi.construct no_db_com CmcCls "Commence.DB" empty_conn_world)
                 = Raise (CmcError msg).
Proof.
  split; [reflexivity|]. split; [reflexivity|].
  apply (com_error_translation_amended no_db_com empty_conn_world CmcCls "Commence.DB"
           MISSING_DB_HRESULT "Invalid class string"); reflexivity.
Defined.

(** C4: the special-cased hresults.  A [com_error] with hresult
    -2147483617 raised by the commit of [Csr.add_record] reaches the caller
    as [CmcError('Record already exists')]; a [com_error] with hresult
    -2147221005 raised by [Dispatch] when a connection is made reaches the
    caller as [CmcError('Db Name "<name>" does not exist - connection
    failed')]. *)
Theorem hresult_special_cases (com : list ComCall -> ComCall -> Reply)
  (s : CsrWorld) (name : string) (pkg : list (string * string)) (m : string)
  (H1 : com_no_raise (com (csr_log s) (GetAddRowSet 1)))
  (H2 : com_no_raise (com (csr_log s ++ [GetAddRowSet 1])%list (ModifyRow 0 0 name)))
  (H3 : com_no_raise (com (csr_log s ++ [GetAddRowSet 1; ModifyRow 0 0 name])%list
                          (ModifyRowDict 0 pkg)))
  (Hc : com (csr_log s ++ add_record_prefix name pkg)%list Commit
        = RRaise (ComError Csr.DUPLICATE_HRESULT m))
  (w : ConnWorld) (cls : ConnClass) (db : string) (m' : string)
  (Hnew : connections w !! db = None)
  (Hd : com (conn_log w) (Dispatch db) = RRaise (ComError MISSING_DB_HRESULT m')) :
  fst (Csr.add_record com name pkg s) = Raise (CmcError "Record already exists")
  /\ fst (DbApi.construct com cls db w) = Raise (CmcError (missing_db_msg db)).
Proof.
  split.
  - rewrite add_record_translate.
    pose proof (add_record_body_commit_raise com name pkg s _ H1 H2 H3 Hc) as Hb.
    destruct (Csr.add_record_body com name pkg s) as [r s']. cbn in Hb. subst r.
    reflexivity.
  - rewrite (construct_dispatch_error com w cls db MISSING_DB_HRESULT m' Hnew Hd).
    reflexivity.
Qed.

Lemma hresult_special_cases_witness :
  fst (Csr.add_record no_db_com "Bob" [] {| csr_log := [] |})
    = Raise (CmcError "Record already exists")
  /\ fst (DbApi.construct no_db_com CmcConnectionCls "Sales.DB" empty_conn_world)
    = Raise (CmcError (missing_db_msg "Sales.DB")).
Proof.
  apply (hresult_special_cases no_db_com {| csr_log := [] |} "Bob" [] "Exception occurred."
           ltac:(exact I) ltac:(exact I) ltac:(exact I) eq_refl
           empty_conn_world CmcConnectionCls "Sales.DB" "Invalid class string"
           eq_refl eq_refl).
Defined.

(** ** Failures in the record operations of [Csr] *)

(** One COM call of a [Csr] that does not raise, at the current history. *)
Ltac csr_com_step :=
  unfold py_bind at 1;
  match goal with
  | |- context [com_unit ?com ?c ?st] =>
      rewrite (@com_unit_no_raise CsrWorld CsrWorld_log com c st)
        by (cbn [get_log CsrWorld_log csr_log]; rewrite <- ?app_assoc; cbn [app];
            assumption)
  end;
  cbv beta iota; cbn [set_log get_log CsrWorld_log csr_log].

(** A server whose [set_filter] raises. *)
Definition filter_fails_com : list ComCall -> ComCall -> Reply :=
  fun _ c => match c with
             | SetFilter _ => RRaise (ComError (-2147352567) "Exception occurred.")
             | _ => RNone
             end.

(** C5, counterexample: when filtering by name raises, [Csr.delete_record]
    returns [None] to its caller instead of surfacing the failure. *)
Lemma delete_record_swallows_failure :
  fst (Csr.filter_by_name filter_fails_com "Bob" 1 {| csr_log := [] |})
    = Raise (ComError (-2147352567) "Exception occurred.")
  /\ fst (Csr.delete_record filter_fails_com "Bob" {| csr_log := [] |}) = Ok None.
Proof. split; reflexivity. Qed.

(** C5, as amended: [Csr.delete_record] and [get_csr] do not surface
    failures: an exception raised anywhere in their bodies is caught and
    they return [None]; when nothing raises, [delete_record] returns the
    result of the commit and [get_csr] the new [Csr]. *)
Theorem failures_swallowed_amended :
  (forall (com : list ComCall -> ComCall -> Reply) name (s : CsrWorld),
     Csr.delete_record com name s
     = match Csr.delete_record_body com name s with
       | (Ok r, s') => (Ok r, s')
       | (Raise _, s') => (Ok None, s')
       end)
  /\ (forall (W : Type) (Cmc_new : string -> PyM W nat)
        (Cmc_get_cursor : nat -> string -> PyM W nat) table_name cmc_name (w : W),
     Csr.get_csr Cmc_new Cmc_get_cursor table_name cmc_name w
     = match (cmc <- Cmc_new cmc_name ;; Cmc_get_cursor cmc table_name) w with
       | (Ok h, w') => (Ok (Some {| Csr._cursor_cmc := h |}), w')
       | (Raise _, w') => (Ok None, w')
       end).
Proof.
  split.
  - intros com name s. unfold Csr.delete_record, py_try.
    destruct (Csr.delete_record_body com name s) as [[r|e] s']; reflexivity.
  - intros W Cmc_new Cmc_get_cursor table_name cmc_name w.
    unfold Csr.get_csr, py_try, py_bind.
    destruct (Cmc_new cmc_name w) as [[c|e] w1]; [|reflexivity].
    destruct (Cmc_get_cursor c table_name w1) as [[h|e] w2]; reflexivity.
Qed.

(** ** Csr.get_record *)

(** The result of [get_record] on the records of the query. *)
Definition get_record_outcome (record_name : string) (records : list Row) : Result Row :=
  match records with
  | [] => Raise (CmcError ("No record found for " ++ record_name))
  | [r] => Ok r
  | _ => Raise (CmcError ("Expected 1 record, got "
                          ++ py_int_str (Z.of_nat (length records))))
  end.

(** C9: [Csr.get_record(record_name)] filters slot 1 by [Name] equal to
    [record_name], queries the cursor, and when the query returns the
    records [rs]: raises [CmcError] when [rs] is empty or has more than one
    element, and otherwise returns its one record.  In particular it
    returns only when exactly one record matches. *)
Theorem get_record_exactly_one (com : list ComCall -> ComCall -> Reply)
  (s : CsrWorld) (record_name : string) (rs : list Row)
  (Hfilter : com_no_raise (com (csr_log s)
               (SetFilter (Csr.field_filter_str "Name" "Equal To" record_name 1))))
  (Hquery : com_no_raise (com (csr_log s ++ [SetFilter (Csr.field_filter_str "Name"
               "Equal To" record_name 1)])%list (GetQueryRowSet None)))
  (Hrows : com (csr_log s ++ [SetFilter (Csr.field_filter_str "Name" "Equal To"
               record_name 1); GetQueryRowSet None])%list RowSetRows = RRows rs) :
  fst (Csr.get_record com record_name s) = get_record_outcome record_name rs
  /\ (forall r, fst (Csr.get_record com record_name s) = Ok r -> rs = [r]).
Proof.
  assert (Hout : fst (Csr.get_record com record_name s) = get_record_outcome record_name rs).
  { unfold Csr.get_record, Csr.filter_by_name, Csr.filter_by_field.
    csr_com_step.
    unfold py_bind at 1, Csr.get_records. csr_com_step.
    unfold com_rows, py_bind, com_call.
    cbn [get_log CsrWorld_log csr_log]. rewrite <- app_assoc. cbn [app].
    rewrite Hrows. cbv beta iota.
    unfold py_ret. cbv beta iota.
    destruct rs as [|r0 [|r1 rest]]; reflexivity. }
  split; [exact Hout|].
  intros r Hr. rewrite Hout in Hr. unfold get_record_outcome in Hr.
  destruct rs as [|r0 [|r1 rest]]; try discriminate Hr. injection Hr as ->. reflexivity.
Qed.

(** A server holding two records named Bob. *)
Definition two_bobs_com : list ComCall -> ComCall -> Reply :=
  fun _ c => match c with
             | RowSetRows => RRows [{[ "Name" := "Bob" ]}; {[ "Name" := "Bob" ]}]
             | _ => RNone
             end.

Lemma get_record_exactly_one_witness :
  fst (Csr.get_record two_bobs_com "Bob" {| csr_log := [] |})
  = Raise (CmcError "Expected 1 record, got 2").
Proof.
  destruct (get_record_exactly_one two_bobs_com {| csr_log := [] |} "Bob"
              [{[ "Name" := "Bob" ]}; {[ "Name" := "Bob" ]}] I I eq_refl) as [H _].
  rewrite H. reflexivity.
Defined.

(** ** CursorAPI.temporary_filter *)

(** A computation that only talks to the COM server: it leaves the cursor's
    attributes and the dict heap as they are, and only extends the call
    history. *)
Definition log_only {A} (m : PyM CursorWorld A) : Prop :=
  forall w, api (snd (m w)) = api w /\ dicts (snd (m w)) = dicts w
            /\ exists h, cw_log (snd (m w)) = (cw_log w ++ h)%list.

Lemma log_only_ret {A} (a : A) : log_only (py_ret a).
Proof. intros w. split; [|split]; [reflexivity|reflexivity|exists []; by rewrite app_nil_r]. Qed.

Lemma log_only_raise {A} e : log_only (@py_raise CursorWorld A e).
Proof. intros w. split; [|split]; [reflexivity|reflexivity|exists []; by rewrite app_nil_r]. Qed.

Lemma log_only_bind {A B} (m : PyM CursorWorld A) (k : A -> PyM CursorWorld B) :
  log_only m -> (forall a, log_only (k a)) -> log_only (py_bind m k).
Proof.
  intros Hm Hk w. unfold py_bind. specialize (Hm w).
  destruct (m w) as [[a|e] w1]; cbn in Hm |- *; [|exact Hm].
  destruct (Hk a w1) as [H1 [H2 [h2 H5]]]. destruct Hm as [H3 [H4 [h1 H6]]].
  split; [congruence|split; [congruence|]].
  exists (h1 ++ h2)%list. rewrite H5, H6. by rewrite app_assoc.
Qed.

Lemma log_only_com_call com c : log_only (@com_call CursorWorld CursorWorld_log com c).
Proof.
  intros w. unfold com_call.
  destruct (com (get_log w) c); (split; [|split]; [reflexivity|reflexivity|exists [c]; reflexivity]).
Qed.

Create HintDb log_only.
#[local] Hint Resolve log_only_ret log_only_raise log_only_com_call : log_only.

Ltac solve_log_only :=
  repeat first
    [ apply log_only_bind; [|intros ?]
    | progress eauto with log_only
    | match goal with |- log_only (match ?x with _ => _ end) => destruct x end ].

Lemma log_only_com_unit com c : log_only (@com_unit CursorWorld CursorWorld_log com c).
Proof. unfold com_unit. solve_log_only. Qed.
Lemma log_only_com_int com c : log_only (@com_int CursorWorld CursorWorld_log com c).
Proof. unfold com_int. solve_log_only. Qed.
Lemma log_only_com_str com c : log_only (@com_str CursorWorld CursorWorld_log com c).
Proof. unfold com_str. solve_log_only. Qed.
#[local] Hint Resolve log_only_com_unit log_only_com_int log_only_com_str : log_only.

Lemma log_only_com_each com cs : log_only (CursorV2.com_each com cs).
Proof. induction cs as [|c cs IH]; simpl; solve_log_only. Qed.
#[local] Hint Resolve log_only_com_each : log_only.

Lemma log_only_filter_by_array com filter_strs sort_text logic_text :
  log_only (CursorV2.filter_by_array com filter_strs sort_text logic_text).
Proof.
  intros w. unfold CursorV2.filter_by_array.
  destruct (filter_array (api w)) as [fa|];
    [|split; [|split]; [reflexivity|reflexivity|exists []; by rewrite app_nil_r]].
  generalize (CursorV2.dict_of fa w) as d. intros d.
  match goal with |- api (snd (?m w)) = _ /\ _ =>
    assert (Hm : log_only m) by solve_log_only; exact (Hm w) end.
Qed.

(** [fil.copy()] keeps every field: the copy refers to the same dict. *)
Lemma fa_copy_fields (o : FilterArrayObj) : fa_copy o = o.
Proof. destruct o; reflexivity. Qed.

(** The run of [with self.temporary_filter(fil_array): body]. *)
Lemma temporary_filter_run {A : Type}
  (com : list ComCall -> ComCall -> Reply)
  (filter_strs : FilterArrayObj -> gmap Z CmcFilter -> list string)
  (sort_text logic_text : FilterArrayObj -> gmap Z CmcFilter -> option string)
  (fil_array : option FilterArrayObj) (body : PyM CursorWorld A) (w : CursorWorld) :
  CursorV2.temporary_filter com filter_strs sort_text logic_text fil_array body w
  = match CursorV2.filter_by_array com filter_strs sort_text logic_text
            (set_api (with_filter_array fil_array (api w)) w) with
    | (Raise e, w2) => (Raise e, set_api (with_filter_array (filter_array (api w)) (api w2)) w2)
    | (Ok _, w2) =>
        (fst (body w2),
         set_api (with_filter_array (filter_array (api w)) (api (snd (body w2)))) (snd (body w2)))
    end.
Proof.
  unfold CursorV2.temporary_filter, py_bind at 1, assign_filter_array.
  cbv beta iota.
  replace (match filter_array (api w) with
           | Some fa => Some (fa_copy fa) | None => None end) with (filter_array (api w))
    by (destruct (filter_array (api w)) as [fa|]; [rewrite fa_copy_fields|]; reflexivity).
  unfold py_finally, py_bind.
  destruct (CursorV2.filter_by_array com filter_strs sort_text logic_text
              (set_api (with_filter_array fil_array (api w)) w)) as [[u|e] w2]; [|reflexivity].
  destruct (body w2) as [rb w3]; reflexivity.
Qed.

(** C6: [with self.temporary_filter(fil_array): body].  On entry the cursor's
    [filter_array] becomes [fil_array], the other attributes staying as they
    were, and [filter_by_array] applies it; the block runs in that state.
    Whether [filter_by_array] raises, the block raises, or the block ends
    normally, on exit [filter_array] is set back to the (shallow) copy of
    the entry value taken on entry, which has the entry value's fields
    ([None] if there was none); the other attributes are left as the block
    left them, and the outcome is the block's. *)
Theorem temporary_filter_restores {A : Type}
  (com : list ComCall -> ComCall -> Reply)
  (filter_strs : FilterArrayObj -> gmap Z CmcFilter -> list string)
  (sort_text logic_text : FilterArrayObj -> gmap Z CmcFilter -> option string)
  (fil_array : option FilterArrayObj) (body : PyM CursorWorld A) (w : CursorWorld) :
  let og := filter_array (api w) in
  let w1 := set_api (with_filter_array fil_array (api w)) w in
  let fba := CursorV2.filter_by_array com filter_strs sort_text logic_text in
  filter_array (api (snd (CursorV2.temporary_filter com filter_strs sort_text logic_text
                            fil_array body w))) = og
  /\ api (snd (fba w1)) = with_filter_array fil_array (api w)
  /\ CursorV2.temporary_filter com filter_strs sort_text logic_text fil_array body w
     = match fba w1 with
       | (Raise e, w2) => (Raise e, set_api (with_filter_array og (api w2)) w2)
       | (Ok _, w2) =>
           (fst (body w2),
            set_api (with_filter_array og (api (snd (body w2)))) (snd (body w2)))
       end.
Proof.
  intros og w1 fba.
  assert (Hfba : api (snd (fba w1)) = with_filter_array fil_array (api w)).
  { destruct (log_only_filter_by_array com filter_strs sort_text logic_text w1) as [H _].
    exact H. }
  assert (Heq : CursorV2.temporary_filter com filter_strs sort_text logic_text fil_array body w
     = match fba w1 with
       | (Raise e, w2) => (Raise e, set_api (with_filter_array og (api w2)) w2)
       | (Ok _, w2) =>
           (fst (body w2),
            set_api (with_filter_array og (api (snd (body w2)))) (snd (body w2)))
       end) by exact (temporary_filter_run com filter_strs sort_text logic_text fil_array body w).
  split; [|split; [exact Hfba | exact Heq]].
  rewrite Heq. destruct (fba w1) as [[u|e] w2]; reflexivity.
Qed.

(** ** CursorAPI._read_rows *)

(** A yielded value is the query row, with its [category] added when
    [with_category] is set. *)
Definition row_yield (with_category : bool) (r : Row) (y : Yielded) : Prop :=
  if with_category then exists c, y = YRow (<["category" := c]> r) else y = YRow r.

(** The calls [_read_rows] makes before it enters the filter manager. *)
Definition seek_calls (pagination : Pagination) : list ComCall :=
  if Z.eqb (offset pagination) 0 then [] else [SeekRow CURRENT (offset pagination)].

(** The [MoreAvailable] that [_read_rows] yields after the rows. *)
Definition more_available (rc : Z) (pagination : Pagination) : list Yielded :=
  if Z.ltb 0 (rc - end_ pagination)
  then [YMore {| n_more := rc - end_ pagination |}] else [].

Ltac ok_step H :=
  unfold py_bind at 1 in H;
  lazymatch type of H with
  | context [match ?m ?st with _ => _ end] =>
      let a := fresh "a" in let e := fresh "e" in let st' := fresh "w" in
      let E := fresh "E" in
      destruct (m st) as [[a|e] st'] eqn:E; [|discriminate H]
  end.

Lemma yield_rows_ok (com : list ComCall -> ComCall -> Reply) wc rows :
  forall w ys w', CursorV2.yield_rows com wc rows w = (Ok ys, w') ->
  Forall2 (row_yield wc) rows ys.
Proof.
  induction rows as [|row rest IH]; intros w ys w' H; cbn [CursorV2.yield_rows] in H.
  - injection H as <- _. constructor.
  - unfold py_bind at 1 in H.
    destruct ((if wc then CursorV2.add_category_to_dict com row else py_ret row) w)
      as [[row'|e] w1] eqn:E1; [|discriminate H].
    ok_step H. ok_step H. ok_step H.
    unfold py_ret in H. injection H as <- _.
    constructor; [|eapply IH; eassumption].
    unfold row_yield. destruct wc.
    + unfold CursorV2.add_category_to_dict, py_bind in E1.
      destruct (CursorV2.category com w) as [[c|e] wc0]; [|discriminate E1].
      injection E1 as <- _. exists c. reflexivity.
    + injection E1 as <- _. reflexivity.
Qed.

Lemma bind_ok_inv {S A B} (m : PyM S A) (k : A -> PyM S B) s b s' :
  py_bind m k s = (Ok b, s') -> exists a s1, m s = (Ok a, s1) /\ k a s1 = (Ok b, s').
Proof.
  unfold py_bind. destruct (m s) as [[a|e] s1]; [|discriminate]. eauto.
Qed.

Lemma com_call_ok_inv {S : Type} `{HasLog S} (com : list ComCall -> ComCall -> Reply) c s r s' :
  com_call com c s = (Ok r, s') ->
  com (get_log s) c = r /\ s' = set_log (get_log s ++ [c])%list s.
Proof.
  unfold com_call. destruct (com (get_log s) c); intros E; injection E; auto; discriminate.
Qed.

Lemma com_unit_ok_inv {S : Type} `{HasLog S} (com : list ComCall -> ComCall -> Reply) c s u s' :
  com_unit com c s = (Ok u, s') -> s' = set_log (get_log s ++ [c])%list s.
Proof.
  unfold com_unit. intros E. apply bind_ok_inv in E as (r & s1 & E1 & E2).
  apply com_call_ok_inv in E1 as [_ ->]. injection E2 as _ <-. reflexivity.
Qed.

Lemma com_int_ok_inv {S : Type} `{HasLog S} (com : list ComCall -> ComCall -> Reply) c s z s' :
  com_int com c s = (Ok z, s') ->
  com (get_log s) c = RInt z /\ s' = set_log (get_log s ++ [c])%list s.
Proof.
  unfold com_int. intros E. apply bind_ok_inv in E as (r & s1 & E1 & E2).
  apply com_call_ok_inv in E1 as [<- ->].
  destruct (com (get_log s) c); try discriminate E2. injection E2 as <- <-. auto.
Qed.

Lemma com_rows_ok_inv {S : Type} `{HasLog S} (com : list ComCall -> ComCall -> Reply) c s rows s' :
  com_rows com c s = (Ok rows, s') ->
  com (get_log s) c = RRows rows /\ s' = set_log (get_log s ++ [c])%list s.
Proof.
  unfold com_rows. intros E. apply bind_ok_inv in E as (r & s1 & E1 & E2).
  apply com_call_ok_inv in E1 as [<- ->].
  destruct (com (get_log s) c); try discriminate E2. injection E2 as <- <-. auto.
Qed.

Lemma read_rows_block_ok (com : list ComCall -> ComCall -> Reply) wc pagination
  (w : CursorWorld) ys w' :
  CursorV2.read_rows_block com wc pagination w = (Ok ys, w') ->
  exists rc rows ys_rows,
    com (cw_log w) RowCount = RInt rc
    /\ com (cw_log w ++ [RowCount; GetQueryRowSet (limit pagination)])%list RowSetRows
       = RRows rows
    /\ Forall2 (row_yield wc) rows ys_rows
    /\ ys = (ys_rows ++ more_available rc pagination)%list.
Proof.
  unfold CursorV2.read_rows_block, CursorV2.row_count. intros H.
  apply bind_ok_inv in H as (rc & w1 & E1 & H).
  apply com_int_ok_inv in E1 as [Erc ->].
  apply bind_ok_inv in H as (u & w2 & E2 & H).
  apply com_unit_ok_inv in E2 as ->.
  apply bind_ok_inv in H as (rows & w3 & E3 & H).
  apply com_rows_ok_inv in E3 as [Erows ->].
  apply bind_ok_inv in H as (ys_rows & w4 & E4 & H).
  cbn [get_log set_log CursorWorld_log cw_log] in Erc, Erows.
  rewrite <- app_assoc in Erows. cbn [app] in Erows.
  exists rc, rows, ys_rows.
  split; [exact Erc|split; [exact Erows|split; [eapply yield_rows_ok; exact E4|]]].
  unfold more_available.
  destruct (Z.ltb 0 (rc - end_ pagination)).
  - apply bind_ok_inv in H as (c & w5 & _ & H). injection H as <- _. reflexivity.
  - injection H as <- _. by rewrite app_nil_r.
Qed.

(** C8: a run of [CursorAPI._read_rows(with_category, pagination,
    filter_array)] that completes yields, in order, the rows of the query
    row set fetched with [get_query_row_set(pagination.limit)] (each with
    its [category] added when [with_category] is set), then one
    [MoreAvailable] with [n_more = row_count - pagination.end] exactly when
    [row_count > pagination.end], and nothing else.  The queries are issued
    after the seek by [pagination.offset] rows (none when the offset is 0)
    and, when a filter array is given, after the filter calls. *)
Theorem read_rows_yields (com : list ComCall -> ComCall -> Reply)
  (filter_strs : FilterArrayObj -> gmap Z CmcFilter -> list string)
  (sort_text logic_text : FilterArrayObj -> gmap Z CmcFilter -> option string)
  wc pagination fil (w : CursorWorld) ys w'
  (Hrun : CursorV2._read_rows com filter_strs sort_text logic_text wc pagination fil w
          = (Ok ys, w')) :
  exists h rc rows ys_rows,
    (exists h', h = (cw_log w ++ seek_calls pagination ++ h')%list /\ (fil = None -> h' = []))
    /\ com h RowCount = RInt rc
    /\ com (h ++ [RowCount; GetQueryRowSet (limit pagination)])%list RowSetRows = RRows rows
    /\ Forall2 (row_yield wc) rows ys_rows
    /\ ys = (ys_rows ++ more_available rc pagination)%list
    /\ more_available rc pagination
       = (if Z.ltb (end_ pagination) rc
          then [YMore {| n_more := rc - end_ pagination |}] else []).
Proof.
  unfold CursorV2._read_rows in Hrun.
  apply bind_ok_inv in Hrun as (u & w1 & E1 & H).
  assert (Hw1 : cw_log w1 = (cw_log w ++ seek_calls pagination)%list).
  { unfold seek_calls. destruct (Z.eqb (offset pagination) 0).
    - injection E1 as _ <-. by rewrite app_nil_r.
    - apply com_unit_ok_inv in E1 as ->. reflexivity. }
  assert (Hmore : forall rc, more_available rc pagination
       = (if Z.ltb (end_ pagination) rc
          then [YMore {| n_more := rc - end_ pagination |}] else [])).
  { intros rc. unfold more_available.
    destruct (Z.ltb_spec 0 (rc - end_ pagination)), (Z.ltb_spec (end_ pagination) rc);
      reflexivity || lia. }
  destruct fil as [fa|].
  - rewrite temporary_filter_run in H.
    destruct (CursorV2.filter_by_array com filter_strs sort_text logic_text
                (set_api (with_filter_array (Some fa) (api w1)) w1)) as [[v|e] w2] eqn:Ef;
      [|discriminate H].
    injection H as Hb _.
    destruct (CursorV2.read_rows_block com wc pagination w2) as [r w3] eqn:Eb.
    cbn [fst] in Hb. subst r.
    destruct (read_rows_block_ok com wc pagination w2 ys w3 Eb)
      as (rc & rows & ys_rows & Erc & Erows & Hf & Hys).
    destruct (log_only_filter_by_array com filter_strs sort_text logic_text
                (set_api (with_filter_array (Some fa) (api w1)) w1)) as (_ & _ & h' & Hh).
    rewrite Ef in Hh. cbn [snd] in Hh.
    exists (cw_log w2), rc, rows, ys_rows.
    split; [|split; [exact Erc|split; [exact Erows|split; [exact Hf|split; [exact Hys|apply Hmore]]]]].
    exists h'. split; [|discriminate].
    rewrite Hh. unfold set_api. cbn [cw_log]. rewrite Hw1. by rewrite app_assoc.
  - destruct (read_rows_block_ok com wc pagination w1 ys w' H)
      as (rc & rows & ys_rows & Erc & Erows & Hf & Hys).
    exists (cw_log w1), rc, rows, ys_rows.
    split; [|split; [exact Erc|split; [exact Erows|split; [exact Hf|split; [exact Hys|apply Hmore]]]]].
    exists []. split; [|reflexivity]. by rewrite Hw1, app_nil_r.
Qed.

(** A server with five records, returning two of them per query. *)
Definition page_com : list ComCall -> ComCall -> Reply :=
  fun _ c => match c with
             | RowCount => RInt 5
             | RowSetRows => RRows [{[ "Name" := "Ann" ]}; {[ "Name" := "Bob" ]}]
             | Category => RStr "Contact"
             | ColumnLabel _ => RStr "Name"
             | _ => RNone
             end.

Definition page_pagination : Pagination := {| offset := 1; limit := Some 2; end_ := 3 |}.

Lemma read_rows_yields_witness :
  fst (CursorV2._read_rows page_com (fun _ _ => ["[ViewFilter(1,F,,Name,Equal To,Bob)]"])
         (fun _ _ => None) (fun _ _ => None) false page_pagination (Some sample_fa)
         sample_world)
  = Ok [YRow {[ "Name" := "Ann" ]}; YRow {[ "Name" := "Bob" ]}; YMore {| n_more := 2 |}]
  /\ exists h rc rows ys_rows,
    (exists h', h = (cw_log sample_world ++ seek_calls page_pagination ++ h')%list
                /\ (Some sample_fa = None -> h' = []))
    /\ page_com h RowCount = RInt rc
    /\ page_com (h ++ [RowCount; GetQueryRowSet (limit page_pagination)])%list RowSetRows
       = RRows rows
    /\ Forall2 (row_yield false) rows ys_rows
    /\ [YRow {[ "Name" := "Ann" ]}; YRow {[ "Name" := "Bob" ]}; YMore {| n_more := 2 |}]
       = (ys_rows ++ more_available rc page_pagination)%list
    /\ more_available rc page_pagination
       = (if Z.ltb (end_ page_pagination) rc
          then [YMore {| n_more := rc - end_ page_pagination |}] else []).
Proof.
  split; [vm_compute; reflexivity|].
  apply (read_rows_yields page_com (fun _ _ => ["[ViewFilter(1,F,,Name,Equal To,Bob)]"])
           (fun _ _ => None) (fun _ _ => None) false page_pagination (Some sample_fa)
           sample_world _
           (snd (CursorV2._read_rows page_com
                   (fun _ _ => ["[ViewFilter(1,F,,Name,Equal To,Bob)]"])
                   (fun _ _ => None) (fun _ _ => None) false page_pagination
                   (Some sample_fa) sample_world))).
  vm_compute. reflexivity.
Defined.

(** ** The connection cache of api/db_api.py *)

Lemma construct_cached_run (com : list ComCall -> ComCall -> Reply) cls name o ob
  (w : ConnWorld) :
  connections w !! name = Some o -> objs w !! o = Some ob -> _initialized ob = true ->
  DbApi.construct com cls name w = (Ok o, w).
Proof.
  intros Hc Ho Hi. unfold DbApi.construct, DbApi.__new__, py_bind, get_obj.
  rewrite Hc, Ho. destruct (isinstance (obj_class ob) cls); [|reflexivity].
  unfold DbApi.__init__, py_bind, get_obj. rewrite Ho, Hi. reflexivity.
Qed.

Lemma isinstance_refl c : isinstance c c = true.
Proof. by destruct c. Qed.

(** A construction with a name not in the cache: a fresh object is cached,
    marked initialized, and [Dispatch name] is the one COM call. *)
Lemma construct_fresh_run (com : list ComCall -> ComCall -> Reply) cls name
  (w : ConnWorld) :
  connections w !! name = None ->
  exists r ob,
    DbApi.construct com cls name w
    = (r, {| connections := <[name := next_id w]> (connections w);
             objs := <[next_id w := ob]> (objs w);
             next_id := S (next_id w);
             conn_log := (conn_log w ++ [Dispatch name])%list |})
    /\ _initialized ob = true
    /\ (forall o, r = Ok o -> o = next_id w).
Proof.
  intros Hc. unfold DbApi.construct, DbApi.__new__, py_bind at 1. rewrite Hc.
  unfold py_bind at 1, get_obj. cbn [objs]. rewrite lookup_insert_eq.
  cbn [obj_class]. rewrite isinstance_refl.
  unfold DbApi.__init__, py_bind at 1 2, get_obj. cbn [objs]. rewrite lookup_insert_eq.
  cbn [_initialized]. unfold set_obj, py_bind at 1, py_try, py_bind at 1, com_obj,
    py_bind at 1, com_call.
  cbn [get_log set_log ConnWorld_log conn_log connections objs next_id].
  destruct (com (conn_log w) (Dispatch name)) as [| | | | | h | e];
    cbv beta iota delta [py_bind py_ret get_obj set_obj py_raise];
    cbn [connections objs next_id conn_log obj_class _initialized db_name _cmc];
    rewrite ?lookup_insert_eq; cbv beta iota;
    cbn [connections objs next_id conn_log obj_class _initialized db_name _cmc];
    rewrite ?insert_insert_eq;
    try (eexists _, _; split; [reflexivity|split; [reflexivity|intros; discriminate]]).
  - eexists _, _; split; [reflexivity|split; [reflexivity|intros o E; injection E; auto]].
  - destruct e as [| hr m | | |];
      [| destruct (Z.eqb hr MISSING_DB_HRESULT) | | |];
      (eexists _, _; split; [reflexivity|split; [reflexivity|intros; discriminate]]).
Qed.

Lemma dispatch_count_app name h1 h2 :
  dispatch_count name (h1 ++ h2)%list = (dispatch_count name h1 + dispatch_count name h2)%nat.
Proof. unfold dispatch_count. by rewrite List.filter_app, length_app. Qed.

Lemma dispatch_count_one name name' :
  dispatch_count name [Dispatch name'] = if String.eqb name' name then 1%nat else 0%nat.
Proof. unfold dispatch_count. cbn. by destruct (String.eqb name' name). Qed.

(** What holds of the cache between constructions. *)
Definition conn_inv (w : ConnWorld) : Prop :=
  (forall n o, connections w !! n = Some o ->
     exists ob, objs w !! o = Some ob /\ _initialized ob = true)
  /\ (forall o, (next_id w <= o)%nat -> objs w !! o = None)
  /\ (forall n1 n2 o, connections w !! n1 = Some o -> connections w !! n2 = Some o -> n1 = n2)
  /\ (forall n, (dispatch_count n (conn_log w) <= 1)%nat)
  /\ (forall n, dispatch_count n (conn_log w) <> 0%nat -> connections w !! n <> None).

Lemma conn_inv_empty : conn_inv empty_conn_world.
Proof.
  split; [|split; [|split; [|split]]]; cbn.
  - intros n o H. by rewrite lookup_empty in H.
  - intros o _. apply lookup_empty.
  - intros n1 n2 o H. by rewrite lookup_empty in H.
  - intros n. unfold dispatch_count. cbn. lia.
  - intros n H. unfold dispatch_count in H. cbn in H. lia.
Qed.

Lemma construct_inv (com : list ComCall -> ComCall -> Reply) cls name (w : ConnWorld) :
  conn_inv w -> conn_inv (snd (DbApi.construct com cls name w)).
Proof.
  intros Hinv. pose proof Hinv as (Hini & Hfresh & Hinj & Hdc & Hdcc).
  destruct (connections w !! name) as [o|] eqn:Hc.
  - destruct (Hini name o Hc) as (ob & Ho & Hi).
    by rewrite (construct_cached_run com cls name o ob w Hc Ho Hi).
  - destruct (construct_fresh_run com cls name w Hc) as (r & ob & -> & Hi & _).
    cbn [snd]. split; [|split; [|split; [|split]]]; cbn [connections objs next_id conn_log].
    + intros n o Hn. destruct (String.eq_dec n name) as [->|Hne].
      * rewrite lookup_insert_eq in Hn. injection Hn as <-.
        exists ob. by rewrite lookup_insert_eq.
      * rewrite lookup_insert_ne in Hn by congruence.
        destruct (Hini n o Hn) as (ob' & Ho' & Hi').
        assert (o <> next_id w).
        { intros ->. rewrite (Hfresh (next_id w)) in Ho'; [discriminate|lia]. }
        exists ob'. by rewrite lookup_insert_ne by congruence.
    + intros o Ho. rewrite lookup_insert_ne by lia. apply Hfresh. lia.
    + intros n1 n2 o H1 H2.
      assert (Hold : forall n, connections w !! n = Some o -> o <> next_id w).
      { intros n Hn ->. destruct (Hini n _ Hn) as (ob' & Ho' & _).
        rewrite (Hfresh (next_id w)) in Ho'; [discriminate|lia]. }
      destruct (String.eq_dec n1 name) as [->|Hne1], (String.eq_dec n2 name) as [->|Hne2];
        [reflexivity| | |].
      * rewrite lookup_insert_eq in H1. rewrite lookup_insert_ne in H2 by congruence.
        injection H1 as <-. destruct (Hold n2 H2). reflexivity.
      * rewrite lookup_insert_eq in H2. rewrite lookup_insert_ne in H1 by congruence.
        injection H2 as <-. destruct (Hold n1 H1). reflexivity.
      * rewrite lookup_insert_ne in H1, H2 by congruence. exact (Hinj n1 n2 o H1 H2).
    + intros n. rewrite dispatch_count_app, dispatch_count_one.
      destruct (String.eqb_spec name n) as [->|Hne].
      * destruct (dispatch_count n (conn_log w)) eqn:E; [lia|].
        exfalso. apply (Hdcc n); [rewrite E; lia|exact Hc].
      * specialize (Hdc n). lia.
    + intros n Hn. rewrite dispatch_count_app, dispatch_count_one in Hn.
      destruct (String.eq_dec n name) as [->|Hne].
      * by rewrite lookup_insert_eq.
      * rewrite lookup_insert_ne by congruence. apply Hdcc.
        destruct (String.eqb_spec name n); [congruence|lia].
Qed.

(** The world after a sequence of constructions [cls(name)], each of which
    may raise (the caller going on after it). *)
Fixpoint constructs_after (com : list ComCall -> ComCall -> Reply)
  (cs : list (ConnClass * string)) (w : ConnWorld) : ConnWorld :=
  match cs with
  | [] => w
  | (cls, name) :: rest => constructs_after com rest (snd (DbApi.construct com cls name w))
  end.

Lemma constructs_after_inv com cs w : conn_inv w -> conn_inv (constructs_after com cs w).
Proof.
  revert w. induction cs as [|[cls name] cs IH]; intros w Hw; cbn; [exact Hw|].
  apply IH, construct_inv, Hw.
Qed.

Lemma construct_result (com : list ComCall -> ComCall -> Reply) cls name (w : ConnWorld) :
  conn_inv w ->
  connections (snd (DbApi.construct com cls name w)) !! name <> None
  /\ (forall o w', DbApi.construct com cls name w = (Ok o, w') -> connections w' !! name = Some o).
Proof.
  intros (Hini & _).
  destruct (connections w !! name) as [o|] eqn:Hc.
  - destruct (Hini name o Hc) as (ob & Ho & Hi).
    rewrite (construct_cached_run com cls name o ob w Hc Ho Hi). cbn [snd].
    split; [congruence|]. intros o' w' E. injection E as <- <-. exact Hc.
  - destruct (construct_fresh_run com cls name w Hc) as (r & ob & -> & _ & Hr).
    cbn [snd connections]. rewrite lookup_insert_eq. split; [discriminate|].
    intros o w' E. injection E as -> <-. cbn [connections].
    rewrite lookup_insert_eq. by rewrite (Hr o eq_refl).
Qed.

(** ** The connection cache of wrapper/new.py *)

(** A computation that leaves [CmcAPI.connections] as it is. *)
Definition keeps_api_cache {A} (m : PyM NewWorld A) : Prop :=
  forall w, api_connections (snd (m w)) = api_connections w.

Lemma keeps_ret {A} (a : A) : keeps_api_cache (py_ret a).
Proof. intros w. reflexivity. Qed.
Lemma keeps_raise {A} e : keeps_api_cache (@py_raise NewWorld A e).
Proof. intros w. reflexivity. Qed.
Lemma keeps_bind {A B} (m : PyM NewWorld A) (k : A -> PyM NewWorld B) :
  keeps_api_cache m -> (forall a, keeps_api_cache (k a)) -> keeps_api_cache (py_bind m k).
Proof.
  intros Hm Hk w. unfold py_bind. specialize (Hm w).
  destruct (m w) as [[a|e] w1]; cbn in Hm |- *; [|exact Hm]. rewrite Hk. exact Hm.
Qed.
Lemma keeps_try {A} (m : PyM NewWorld A) (h : PyExc -> PyM NewWorld A) :
  keeps_api_cache m -> (forall e, keeps_api_cache (h e)) -> keeps_api_cache (py_try m h).
Proof.
  intros Hm Hh w. unfold py_try. specialize (Hm w).
  destruct (m w) as [[a|e] w1]; cbn in Hm |- *; [exact Hm|]. rewrite Hh. exact Hm.
Qed.
Lemma keeps_com_call com c : keeps_api_cache (@com_call NewWorld NewWorld_log com c).
Proof. intros w. unfold com_call. by destruct (com (get_log w) c). Qed.
Lemma keeps_get_nobj o : keeps_api_cache (get_nobj o).
Proof. intros w. unfold get_nobj. by destruct (nobjs w !! o). Qed.
Lemma keeps_set_nobj o ob : keeps_api_cache (set_nobj o ob).
Proof. intros w. reflexivity. Qed.

Create HintDb keeps_api_cache.
#[local] Hint Resolve keeps_ret keeps_raise keeps_com_call keeps_get_nobj keeps_set_nobj
  : keeps_api_cache.

Ltac solve_keeps :=
  repeat first
    [ apply keeps_bind; [|intros ?]
    | apply keeps_try; [|intros ?]
    | progress eauto with keeps_api_cache
    | match goal with |- keeps_api_cache (match ?x with _ => _ end) => destruct x end
    | match goal with |- keeps_api_cache (if ?x then _ else _) => destruct x end ].

Lemma keeps_com_obj com c : keeps_api_cache (@com_obj NewWorld NewWorld_log com c).
Proof. unfold com_obj. solve_keeps. Qed.
Lemma keeps_check_flags fl : keeps_api_cache (WrapperNew.check_flags fl).
Proof. induction fl as [|f fl IH]; cbn; solve_keeps. Qed.
#[local] Hint Resolve keeps_com_obj keeps_check_flags : keeps_api_cache.

Lemma keeps_get_cursor com fv self name mode flags :
  keeps_api_cache (WrapperNew.get_cursor com fv self name mode flags).
Proof. unfold WrapperNew.get_cursor. solve_keeps. Qed.
#[local] Hint Resolve keeps_get_cursor : keeps_api_cache.

Lemma keeps_cursors_comprehension com fv self names :
  keeps_api_cache (WrapperNew.cursors_comprehension com fv self names).
Proof. induction names as [|n names IH]; cbn; solve_keeps. Qed.
#[local] Hint Resolve keeps_cursors_comprehension : keeps_api_cache.

Lemma keeps_new_init com fv self db_name names :
  keeps_api_cache (WrapperNew.__init__ com fv self db_name names).
Proof. unfold WrapperNew.__init__. solve_keeps. Qed.

Lemma keeps_new_connection com fv db_name names :
  keeps_api_cache (WrapperNew.CmcConnection com fv db_name names).
Proof.
  intros w. unfold WrapperNew.CmcConnection.
  match goal with |- api_connections (snd ((?m ;;; py_ret _) ?w1)) = _ =>
    assert (Hm : keeps_api_cache (m ;;; py_ret (nnext w))) by
      (apply keeps_bind; [apply keeps_new_init | intros; apply keeps_ret]);
    rewrite (Hm w1); reflexivity end.
Qed.

Definition empty_new_world : NewWorld :=
  {| api_connections := ∅; nobjs := ∅; nnext := 0; n_log := [] |}.

(** A server that is not yet up at the first [Dispatch] and is at the
    second. *)
Definition flaky_com : list ComCall -> ComCall -> Reply :=
  fun h c => match c with
             | Dispatch _ =>
                 if existsb (is_dispatch_of "Commence.DB") h then RObj 7
                 else RRaise (ComError (-2147023174) "The RPC server is unavailable.")
             | _ => RNone
             end.

Definition no_flags : OptionFlag -> Z := fun _ => 0.

(** C7, counterexample: [CmcAPI] caches a connection only when its
    construction succeeds.  From an empty cache, [CmcAPI('Commence.DB')]
    raises when [Dispatch] fails; a second [CmcAPI('Commence.DB')] is not
    served from the cache: it dispatches again, so [Dispatch('Commence.DB')]
    is called twice for one name. *)
Lemma cmcapi_redispatches :
  let r1 := WrapperNew.CmcAPI flaky_com no_flags "Commence.DB" [] empty_new_world in
  let r2 := WrapperNew.CmcAPI flaky_com no_flags "Commence.DB" [] (snd r1) in
  fst r1 = Raise (ComError (-2147023174) "The RPC server is unavailable.")
  /\ api_connections (snd r1) !! "Commence.DB" = None
  /\ fst r2 = Ok 1%nat
  /\ dispatch_count "Commence.DB" (n_log (snd r2)) = 2%nat.
Proof. vm_compute. repeat split; reflexivity. Qed.

(** ** Construction of wrapper/new.py's [CmcConnection] *)

(** C10, counterexample: the [AttributeError] raised by
    [CmcConnection('Commence.DB', ['Contact'])] is about [cursors], not
    [_cmc]: [get_cursor] reads [self.cursors] before it reads [self._cmc]. *)
Lemma new_connection_cursors_error :
  fst (WrapperNew.CmcConnection flaky_com no_flags "Commence.DB" ["Contact"] empty_new_world)
  = Raise (AttributeError "cursors").
Proof. vm_compute. reflexivity. Qed.

(** C10, as amended: constructing wrapper/new.py's [CmcConnection] with a
    non-empty [cursor_names] always raises [AttributeError] for the
    attribute [cursors]: the first [get_cursor(name)] of the dict
    comprehension reads [self.cursors], which is assigned only after the
    comprehension; no COM call is made, in particular no [Dispatch].  With
    an empty [cursor_names], the construction returns the new connection
    exactly when [Dispatch(db_name)] returns a COM object. *)
Theorem new_connection_amended :
  (forall (com : list ComCall -> ComCall -> Reply) fv db_name name names (w : NewWorld),
     fst (WrapperNew.CmcConnection com fv db_name (name :: names) w)
     = Raise (AttributeError "cursors")
     /\ n_log (snd (WrapperNew.CmcConnection com fv db_name (name :: names) w)) = n_log w)
  /\ (forall (com : list ComCall -> ComCall -> Reply) fv db_name (w : NewWorld),
     fst (WrapperNew.CmcConnection com fv db_name [] w) = Ok (nnext w)
     <-> exists h, com (n_log w) (Dispatch db_name) = RObj h).
Proof.
  split.
  - intros com fv db_name name names w.
    unfold WrapperNew.CmcConnection, WrapperNew.__init__.
    cbv beta iota delta [py_bind py_ret get_nobj set_nobj py_raise].
    cbn [nobjs n_log nnext]. rewrite lookup_insert_eq. cbv beta iota.
    cbn [WrapperNew.cursors_comprehension]. unfold WrapperNew.get_cursor.
    cbv beta iota delta [py_bind py_ret get_nobj set_nobj py_raise].
    cbn [nobjs n_log]. rewrite lookup_insert_eq. cbv beta iota.
    cbn [cursors fst snd n_log]. split; reflexivity.
  - intros com fv db_name w.
    unfold WrapperNew.CmcConnection, WrapperNew.__init__.
    cbv beta iota delta [py_bind py_ret get_nobj set_nobj py_raise].
    cbn [nobjs n_log nnext]. rewrite lookup_insert_eq. cbv beta iota.
    cbn [WrapperNew.cursors_comprehension].
    cbv beta iota delta [py_bind py_ret get_nobj set_nobj py_raise].
    cbn [nobjs n_log]. rewrite lookup_insert_eq. cbv beta iota.
    unfold py_try, com_obj, com_call.
    cbv beta iota delta [py_bind py_ret get_nobj set_nobj py_raise].
    cbn [get_log set_log NewWorld_log nobjs n_log nnext api_connections].
    destruct (com (n_log w) (Dispatch db_name)) as [| | | | | h | e];
      cbv beta iota; cbn [nobjs];
      rewrite ?lookup_insert_eq; cbv beta iota; cbn [fst];
      try (split; [intros E; discriminate E | intros [h' E]; discriminate E]).
    + split; [intros _; exists h; reflexivity | intros _; reflexivity].
    + destruct e as [| hr m | | |];
        [| destruct (Z.eqb hr MISSING_DB_HRESULT) | | |]; cbn [fst];
        (split; [intros E; discriminate E | intros [h' E]; discriminate E]).
Qed.

(** ** [CmcConnection.get_cursor] of api/db_api.py *)

Lemma db_check_flags_valid fstr (fl : list OptionFlag) (w : ConnWorld) :
  forallb WrapperNew.is_valid_flag fl = true -> DbApiCursor.check_flags fstr fl w = (Ok tt, w).
Proof.
  induction fl as [|f fl IH]; intros H; [reflexivity|].
  cbn in H |- *. apply andb_prop in H as [-> H]. exact (IH H).
Qed.

Lemma db_check_flags_invalid fstr (fl : list OptionFlag) f (w : ConnWorld) :
  List.find (fun g => negb (WrapperNew.is_valid_flag g)) fl = Some f ->
  DbApiCursor.check_flags fstr fl w = (Raise (ValueError ("Invalid flag: " ++ fstr f)), w).
Proof.
  induction fl as [|g fl IH]; intros H; [discriminate H|].
  cbn in H |- *. destruct (WrapperNew.is_valid_flag g); cbn in H.
  - exact (IH H).
  - injection H as ->. reflexivity.
Qed.

(** The flag string [get_cursor] passes to [GetCursor]. *)
Definition db_flags_str (fv : OptionFlag -> Z) (flags : list OptionFlag) : string :=
  match flags with
  | [] => "0"
  | _ => String.concat ", " (map (fun f => py_int_str (fv f)) flags)
  end.

Lemma db_flags_step fv fstr (flags : list OptionFlag) (k : string -> PyM ConnWorld nat)
  (w : ConnWorld) :
  forallb WrapperNew.is_valid_flag flags = true ->
  py_bind (match flags with
           | [] => py_ret "0"
           | _ => DbApiCursor.check_flags fstr flags ;;;
                  py_ret (String.concat ", " (map (fun f => py_int_str (fv f)) flags))
           end) k w
  = k (db_flags_str fv flags) w.
Proof.
  intros H. destruct flags as [|f fl]; [reflexivity|].
  unfold py_bind at 1 2. rewrite (db_check_flags_valid fstr _ w H). reflexivity.
Qed.

(** X1: [get_cursor] validates its arguments before anything else: the
    first flag that is neither [PILOT] nor [INTERNET] makes it raise
    [ValueError('Invalid flag: ...')], and with valid flags a mode 0
    ([CATEGORY]) or 1 ([VIEW]) without a name makes it raise
    [ValueError('Mode m ("NAME") requires name param to be set')]; in both
    cases no COM call is made, [_cmc] is not read and nothing changes. *)
Theorem db_get_cursor_validates (com : list ComCall -> ComCall -> Reply)
  fv fstr ces self name mode (flags : list OptionFlag) (w : ConnWorld) :
  (forall f, List.find (fun g => negb (WrapperNew.is_valid_flag g)) flags = Some f ->
     DbApiCursor.get_cursor com fv fstr ces self name mode flags w
     = (Raise (ValueError ("Invalid flag: " ++ fstr f)), w))
  /\ (forallb WrapperNew.is_valid_flag flags = true ->
      (CursorType_value mode = 0 \/ CursorType_value mode = 1) -> name = None ->
      DbApiCursor.get_cursor com fv fstr ces self name mode flags w
      = (Raise (ValueError ("Mode " ++ py_int_str (CursorType_value mode) ++ " (" ++ dq
                 ++ DbApiCursor.CursorType_name (CursorType_value mode) ++ dq
                 ++ ") requires name param to be set")), w)).
Proof.
  split.
  - intros f Hf. unfold DbApiCursor.get_cursor.
    destruct flags as [|g fl]; [discriminate Hf|].
    unfold py_bind at 1 2. rewrite (db_check_flags_invalid fstr _ f w Hf). reflexivity.
  - intros Hv Hm ->. unfold DbApiCursor.get_cursor. rewrite db_flags_step by exact Hv.
    unfold py_bind at 1.
    destruct Hm as [Hm|Hm]; rewrite Hm; reflexivity.
Qed.

Definition bad_flags_world : ConnWorld :=
  {| connections := ∅; objs := ∅; next_id := 0; conn_log := [] |}.

Lemma db_get_cursor_validates_witness :
  DbApiCursor.get_cursor quiet_com (fun _ => 0) (fun _ => "OptionFlag.OTHER")
    (fun _ => EmptyString) 0%nat
    (Some "Contact") CATEGORY [PILOT; OTHER_FLAG 4] bad_flags_world
  = (Raise (ValueError ("Invalid flag: " ++ "OptionFlag.OTHER")), bad_flags_world)
  /\ DbApiCursor.get_cursor quiet_com (fun _ => 0) (fun _ => "OptionFlag.OTHER")
    (fun _ => EmptyString) 0%nat
       None VIEW [] bad_flags_world
     = (Raise (ValueError ("Mode " ++ py_int_str (CursorType_value VIEW) ++ " (" ++ dq
                 ++ DbApiCursor.CursorType_name (CursorType_value VIEW) ++ dq
                 ++ ") requires name param to be set")), bad_flags_world).
Proof.
  split.
  - apply (proj1 (db_get_cursor_validates quiet_com (fun _ => 0) (fun _ => "OptionFlag.OTHER")
             (fun _ => EmptyString) 0%nat (Some "Contact") CATEGORY [PILOT; OTHER_FLAG 4] bad_flags_world) (OTHER_FLAG 4)).
    reflexivity.
  - apply (proj2 (db_get_cursor_validates quiet_com (fun _ => 0) (fun _ => "OptionFlag.OTHER")
             (fun _ => EmptyString) 0%nat None VIEW [] bad_flags_world)); [reflexivity | right; reflexivity | reflexivity].
Defined.

(** X2: with valid flags, a name when the mode needs one, and a connected
    [Cmc] ([_cmc] set), [get_cursor] makes exactly one COM call,
    [GetCursor(mode, name, flags)] with flags ["0"] when none are given and
    the comma-joined flag values otherwise; it returns the cursor, turns a
    [com_error] [e] into [CmcError('Error creating cursor for {name}: {e}')]
    and lets any other exception through unchanged. *)
Theorem db_get_cursor_call (com : list ComCall -> ComCall -> Reply)
  fv fstr ces self name mode (flags : list OptionFlag) (w : ConnWorld) ob h
  (Hflags : forallb WrapperNew.is_valid_flag flags = true)
  (Hname : (exists n, name = Some n)
           \/ (CursorType_value mode <> 0 /\ CursorType_value mode <> 1))
  (Hob : objs w !! self = Some ob) (Hcmc : _cmc ob = Some h) :
  let call := GetCursor (CursorType_value mode) name (db_flags_str fv flags) in
  DbApiCursor.get_cursor com fv fstr ces self name mode flags w
  = (match com (conn_log w) call with
     | RObj c => Ok c
     | RRaise (ComError hr msg) =>
         Raise (CmcError ("Error creating cursor for " ++ DbApiCursor.py_opt_str name
                          ++ ": " ++ ces (ComError hr msg)))
     | RRaise e => Raise e
     | _ => Raise type_error
     end,
     set_log (conn_log w ++ [call])%list w).
Proof.
  intros call. unfold DbApiCursor.get_cursor. rewrite db_flags_step by exact Hflags.
  assert (Hchk : forall k : unit -> PyM ConnWorld nat,
            py_bind (if (Z.eqb (CursorType_value mode) 0 || Z.eqb (CursorType_value mode) 1)%bool
                     then match name with
                          | None => py_raise (ValueError ("Mode " ++ py_int_str (CursorType_value mode)
                                      ++ " (" ++ dq ++ DbApiCursor.CursorType_name
                                      (CursorType_value mode) ++ dq
                                      ++ ") requires name param to be set"))
                          | Some _ => py_ret tt end
                     else py_ret tt) k w = k tt w).
  { intros k. destruct Hname as [[n ->]|[H0 H1]].
    - by destruct (_ || _)%bool.
    - apply Z.eqb_neq in H0, H1. rewrite H0, H1. reflexivity. }
  cbv zeta. rewrite Hchk.
  unfold py_try, py_bind at 1, get_obj. rewrite Hob, Hcmc.
  unfold com_obj, py_bind, com_call. cbn [get_log set_log ConnWorld_log].
  fold call.
  destruct (com (conn_log w) call) as [| | | | | c | e]; try reflexivity.
  destruct e; reflexivity.
Qed.

(** A server whose cursor for the category [Missing] cannot be opened. *)
Definition cursor_com : list ComCall -> ComCall -> Reply :=
  fun _ c => match c with
             | GetCursor _ (Some "Missing") _ => RRaise (ComError (-2147352567) "Exception occurred.")
             | GetCursor _ _ _ => RObj 3
             | _ => RNone
             end.

Definition connected_world : ConnWorld :=
  {| connections := {[ "Commence.DB" := 0%nat ]};
     objs := {[ 0%nat := {| obj_class := CmcCls; _initialized := true;
                            db_name := Some "Commence.DB"; _cmc := Some 1%nat |} ]};
     next_id := 1; conn_log := [Dispatch "Commence.DB"] |}.

(** A rendering of a [com_error] raised by a method call, with its
    [excepinfo]. *)
Definition sample_com_error_text (e : PyExc) : string :=
  match e with
  | ComError hr msg => "(" ++ py_int_str hr ++ ", '" ++ msg
                       ++ "', (0, 'Commence', 'Invalid category', None, 0, 0), None)"
  | _ => EmptyString
  end.

Lemma db_get_cursor_call_witness :
  fst (DbApiCursor.get_cursor cursor_com (fun _ => 0) (fun _ => EmptyString)
         sample_com_error_text 0%nat (Some "Missing") CATEGORY [] connected_world)
  = Raise (CmcError ("Error creating cursor for Missing: "
                     ++ sample_com_error_text (ComError (-2147352567) "Exception occurred."))).
Proof.
  rewrite (db_get_cursor_call cursor_com (fun _ => 0) (fun _ => EmptyString)
             sample_com_error_text 0%nat
             (Some "Missing") CATEGORY [] connected_world
             {| obj_class := CmcCls; _initialized := true;
                db_name := Some "Commence.DB"; _cmc := Some 1%nat |} 1%nat).
  - reflexivity.
  - reflexivity.
  - left. exists "Missing". reflexivity.
  - reflexivity.
  - reflexivity.
Defined.

(** ** [CursorAPI._read_rows_filtered] *)

(** X4: [_read_rows_filtered(filter_array)] with its default [pagination]
    ([None]) never yields a row: inside the temporary filter it calls
    [_read_rows(pagination=None)], which raises [AttributeError] on
    [pagination.offset] before any further COM call.  The outcome is that
    [AttributeError] (or the failure of applying the filter), the only COM
    calls are those of [filter_by_array], and [filter_array] is restored. *)
Theorem read_rows_filtered_default_pagination (com : list ComCall -> ComCall -> Reply)
  (filter_strs : FilterArrayObj -> gmap Z CmcFilter -> list string)
  (sort_text logic_text : FilterArrayObj -> gmap Z CmcFilter -> option string)
  fa wc (w : CursorWorld) :
  let fba := CursorV2.filter_by_array com filter_strs sort_text logic_text
               (set_api (with_filter_array (Some fa) (api w)) w) in
  let r := CursorV2Pk._read_rows_filtered com filter_strs sort_text logic_text
             fa wc None w in
  fst r = match fst fba with
          | Ok _ => Raise (AttributeError "offset")
          | Raise e => Raise e
          end
  /\ cw_log (snd r) = cw_log (snd fba)
  /\ filter_array (api (snd r)) = filter_array (api w).
Proof.
  intros fba r. unfold r, CursorV2Pk._read_rows_filtered.
  rewrite temporary_filter_run. fold fba.
  destruct fba as [[u|e] w2]; cbn; auto.
Qed.

(** ** [CursorAPI._create_row] *)

(** A call that adds rows. *)
Definition is_add_call (c : ComCall) : bool :=
  match c with GetAddRowSet _ => true | _ => false end.

(** A computation that only appends calls other than [GetAddRowSet]. *)
Definition adds_nothing {A} (m : PyM CursorWorld A) : Prop :=
  forall w, exists h, cw_log (snd (m w)) = (cw_log w ++ h)%list
                      /\ Forall (fun c => is_add_call c = false) h.

Lemma adds_nothing_ret {A} (a : A) : adds_nothing (py_ret a).
Proof. intros w. exists []. by rewrite app_nil_r. Qed.
Lemma adds_nothing_raise {A} e : adds_nothing (@py_raise CursorWorld A e).
Proof. intros w. exists []. by rewrite app_nil_r. Qed.
Lemma adds_nothing_bind {A B} (m : PyM CursorWorld A) (k : A -> PyM CursorWorld B) :
  adds_nothing m -> (forall a, adds_nothing (k a)) -> adds_nothing (py_bind m k).
Proof.
  intros Hm Hk w. unfold py_bind. destruct (Hm w) as (h1 & E1 & F1).
  destruct (m w) as [[a|e] w1]; cbn in E1 |- *; [|eauto].
  destruct (Hk a w1) as (h2 & E2 & F2). exists (h1 ++ h2)%list.
  rewrite E2, E1, app_assoc. split; [reflexivity|]. by apply Forall_app.
Qed.
Lemma adds_nothing_com_call com c :
  is_add_call c = false -> adds_nothing (@com_call CursorWorld CursorWorld_log com c).
Proof.
  intros Hc w. exists [c]. unfold com_call.
  destruct (com (get_log w) c); (split; [reflexivity|by constructor]).
Qed.

Create HintDb adds_nothing.
#[local] Hint Resolve adds_nothing_ret adds_nothing_raise : adds_nothing.

Ltac solve_adds_nothing :=
  repeat first
    [ apply adds_nothing_bind; [|intros ?]
    | apply adds_nothing_com_call; reflexivity
    | progress eauto with adds_nothing
    | match goal with |- adds_nothing (match ?x with _ => _ end) => destruct x end ].

Lemma adds_nothing_com_unit com c :
  is_add_call c = false -> adds_nothing (@com_unit CursorWorld CursorWorld_log com c).
Proof.
  intros Hc. unfold com_unit. apply adds_nothing_bind; [by apply adds_nothing_com_call|].
  intros. apply adds_nothing_ret.
Qed.

Lemma adds_nothing_com_each com cs :
  Forall (fun c => is_add_call c = false) cs -> adds_nothing (CursorV2.com_each com cs).
Proof.
  induction cs as [|c cs IH]; intros H; cbn; [apply adds_nothing_ret|].
  inversion H as [|? ? Hc Hcs]; subst.
  apply adds_nothing_bind; [by apply adds_nothing_com_unit|intros; exact (IH Hcs)].
Qed.

Lemma adds_nothing_filter_by_array com filter_strs sort_text logic_text :
  adds_nothing (CursorV2.filter_by_array com filter_strs sort_text logic_text).
Proof.
  intros w. unfold CursorV2.filter_by_array.
  destruct (filter_array (api w)) as [fa|]; [|exists []; by rewrite app_nil_r].
  generalize (CursorV2.dict_of fa w) as d. intros d.
  match goal with |- exists h, cw_log (snd (?m w)) = _ /\ _ =>
    assert (Hm : adds_nothing m); [|exact (Hm w)] end.
  apply adds_nothing_bind.
  { apply adds_nothing_com_each. apply List.Forall_forall. intros c Hc.
    apply in_map_iff in Hc as (s & <- & _). reflexivity. }
  intros _. unfold CursorV2.row_count, CursorV2.category, com_int, com_str.
  solve_adds_nothing.
Qed.

Lemma adds_nothing_temporary_filter {A} com filter_strs sort_text logic_text fil
  (body : PyM CursorWorld A) :
  adds_nothing body ->
  adds_nothing (CursorV2.temporary_filter com filter_strs sort_text logic_text fil body).
Proof.
  intros Hb w. rewrite temporary_filter_run.
  destruct (adds_nothing_filter_by_array com filter_strs sort_text logic_text
              (set_api (with_filter_array fil (api w)) w)) as (h1 & E1 & F1).
  destruct (CursorV2.filter_by_array com filter_strs sort_text logic_text
              (set_api (with_filter_array fil (api w)) w)) as [[u|e] w2];
    cbn [snd] in E1 |- *; [|exists h1; exact (conj E1 F1)].
  destruct (Hb w2) as (h2 & E2 & F2). exists (h1 ++ h2)%list.
  unfold set_api at 1. cbn [cw_log]. rewrite E2, E1, app_assoc.
  split; [reflexivity|by apply Forall_app].
Qed.

Lemma adds_nothing_pk_label com : adds_nothing (CursorV2.pk_label com).
Proof.
  intros w. unfold CursorV2.pk_label.
  destruct (pk_label_cache (api w)); [exists []; by rewrite app_nil_r|].
  match goal with |- exists h, cw_log (snd (?m w)) = _ /\ _ =>
    assert (Hm : adds_nothing m); [|exact (Hm w)] end.
  apply adds_nothing_bind; [by apply adds_nothing_com_unit|intros _].
  apply adds_nothing_bind; [unfold com_str; solve_adds_nothing|intros l].
  intros w'. exists []. by rewrite app_nil_r.
Qed.

Lemma adds_nothing_pk_exists com filter_strs sort_text logic_text pk_filter_array pk :
  adds_nothing (CursorV2Pk.pk_exists com filter_strs sort_text logic_text pk_filter_array pk).
Proof.
  unfold CursorV2Pk.pk_exists, CursorV2Pk.pk_filter.
  apply adds_nothing_bind.
  - apply adds_nothing_bind; [apply adds_nothing_pk_label|intros; apply adds_nothing_ret].
  - intros fa. apply adds_nothing_temporary_filter.
    unfold CursorV2.row_count, com_int. solve_adds_nothing.
Qed.

(** [pk_label] is a cached property: once read, it is read again without
    COM calls. *)
Lemma pk_label_cached com (w w1 : CursorWorld) l :
  CursorV2.pk_label com w = (Ok l, w1) -> CursorV2.pk_label com w1 = (Ok l, w1).
Proof.
  unfold CursorV2.pk_label. destruct (pk_label_cache (api w)) as [l0|] eqn:Ec.
  - intros E. injection E as <- <-. rewrite Ec. reflexivity.
  - intros E. apply bind_ok_inv in E as (u & w2 & _ & E).
    apply bind_ok_inv in E as (l' & w3 & _ & E).
    injection E as <- <-. reflexivity.
Qed.

(** X5: [_create_row(create_pkg)] when [create_pkg] has no value, or an
    empty one, under the primary-key label: it raises
    [ValueError('Primary key {label} not provided in create_pkg.')], and
    the only COM calls are those that read [pk_label]; no existence check
    and no row set are made. *)
Theorem create_row_missing_pk (com : list ComCall -> ComCall -> Reply)
  filter_strs sort_text logic_text pk_filter_array exists_error
  (create_pkg : list (string * string)) (w w1 : CursorWorld) label
  (Hlabel : CursorV2.pk_label com w = (Ok label, w1))
  (Hmissing : str_truthy (default EmptyString (CursorV2Pk.dict_get label create_pkg)) = false) :
  CursorV2Pk._create_row com filter_strs sort_text logic_text pk_filter_array exists_error
    create_pkg w
  = (Raise (ValueError ("Primary key " ++ label ++ " not provided in create_pkg.")), w1).
Proof.
  unfold CursorV2Pk._create_row, py_bind at 1. rewrite Hlabel. cbv beta iota zeta.
  rewrite Hmissing. cbn [negb]. unfold py_bind. rewrite (pk_label_cached com w w1 label Hlabel).
  reflexivity.
Qed.

Definition labelled_world : CursorWorld :=
  {| api := {| cursor_wrapper := 0; mode := CATEGORY; csrname := "Contact";
               filter_array := None; pk_label_cache := Some "Name" |};
     dicts := ∅; cw_log := [] |}.

Lemma create_row_missing_pk_witness :
  CursorV2Pk._create_row quiet_com (fun _ _ => []) (fun _ _ => None) (fun _ _ => None)
    (fun _ _ => sample_fa) (fun m => ValueError m) [("Email", "bob@example.com")]
    labelled_world
  = (Raise (ValueError ("Primary key " ++ "Name" ++ " not provided in create_pkg.")),
     labelled_world).
Proof.
  apply (create_row_missing_pk quiet_com (fun _ _ => []) (fun _ _ => None) (fun _ _ => None)
           (fun _ _ => sample_fa) (fun m => ValueError m) [("Email", "bob@example.com")]
           labelled_world labelled_world "Name"); reflexivity.
Defined.

Lemma no_add_in_log (w w' : CursorWorld) h h1 :
  cw_log w' = (cw_log w ++ h)%list -> cw_log w' = (cw_log w ++ h1)%list ->
  Forall (fun c => is_add_call c = false) h1 ->
  List.Exists (fun c => is_add_call c = true) h -> False.
Proof.
  intros E E1 F X. rewrite E in E1. apply app_inv_head in E1. subst h1. clear E.
  induction X as [c h Hc|c h _ IH]; inversion F as [|? ? Hc' Hf]; subst; [congruence|].
  exact (IH Hf).
Qed.

Lemma com_unit_step (com : list ComCall -> ComCall -> Reply) c (w : CursorWorld) :
  cw_log (snd (com_unit com c w)) = (cw_log w ++ [c])%list
  /\ (fst (com_unit com c w) = Ok tt \/ exists e, fst (com_unit com c w) = Raise e).
Proof.
  unfold com_unit, py_bind, com_call. cbn [get_log CursorWorld_log].
  destruct (com (cw_log w) c); cbn; eauto.
Qed.

(** X6: [_create_row(create_pkg)] opens an add row set only for a new
    primary key: whenever its COM calls include [GetAddRowSet], it read a
    primary-key label, [create_pkg] holds a non-empty value [pk] under it,
    and [pk_exists(pk)] returned [False]; its remaining calls are then a
    prefix, starting with [GetAddRowSet(1)], of [GetAddRowSet(1)],
    [ModifyRowDict(0, create_pkg)], [Commit]. *)
Theorem create_row_adds_only_new (com : list ComCall -> ComCall -> Reply)
  filter_strs sort_text logic_text pk_filter_array exists_error
  (create_pkg : list (string * string)) (w : CursorWorld) r w' h
  (Hrun : CursorV2Pk._create_row com filter_strs sort_text logic_text pk_filter_array
            exists_error create_pkg w = (r, w'))
  (Hlog : cw_log w' = (cw_log w ++ h)%list)
  (Hadd : List.Exists (fun c => is_add_call c = true) h) :
  exists label w1 pk w2 k,
    CursorV2.pk_label com w = (Ok label, w1)
    /\ CursorV2Pk.dict_get label create_pkg = Some pk /\ str_truthy pk = true
    /\ CursorV2Pk.pk_exists com filter_strs sort_text logic_text pk_filter_array pk w1
       = (Ok false, w2)
    /\ cw_log w' = (cw_log w2 ++ firstn (S k) [GetAddRowSet 1; ModifyRowDict 0 create_pkg;
                                              Commit])%list.
Proof.
  unfold CursorV2Pk._create_row, py_bind at 1 in Hrun.
  destruct (adds_nothing_pk_label com w) as (h1 & E1 & F1).
  destruct (CursorV2.pk_label com w) as [[label|e] w1] eqn:Epl; cbn [snd] in E1;
    [|injection Hrun as _ <-; destruct (no_add_in_log w w1 h h1 Hlog E1 F1 Hadd)].
  cbv beta iota zeta in Hrun.
  destruct (CursorV2Pk.dict_get label create_pkg) as [pk|] eqn:Ed;
    cbn [default from_option id] in Hrun;
    [|cbn [str_truthy negb] in Hrun; cbv beta iota in Hrun;
      unfold py_bind in Hrun; rewrite (pk_label_cached com w w1 label Epl) in Hrun;
      injection Hrun as _ <-; destruct (no_add_in_log w w1 h h1 Hlog E1 F1 Hadd)].
  destruct (str_truthy pk) eqn:Et; cbn [negb] in Hrun.
  2:{ unfold py_bind in Hrun; rewrite (pk_label_cached com w w1 label Epl) in Hrun.
      injection Hrun as _ <-. destruct (no_add_in_log w w1 h h1 Hlog E1 F1 Hadd). }
  unfold py_bind at 1 in Hrun.
  destruct (adds_nothing_pk_exists com filter_strs sort_text logic_text pk_filter_array pk w1)
    as (h2 & E2 & F2).
  assert (F12 : Forall (fun c => is_add_call c = false) (h1 ++ h2)%list)
    by (apply Forall_app; auto).
  destruct (CursorV2Pk.pk_exists com filter_strs sort_text logic_text pk_filter_array pk w1)
    as [[b|e] w2] eqn:Ee; cbn [snd] in E2.
  2:{ injection Hrun as _ <-. rewrite E1, <- app_assoc in E2.
      destruct (no_add_in_log w w2 h _ Hlog E2 F12 Hadd). }
  destruct b.
  { injection Hrun as _ <-. rewrite E1, <- app_assoc in E2.
    destruct (no_add_in_log w w2 h _ Hlog E2 F12 Hadd). }
  exists label, w1, pk, w2.
  unfold py_bind at 1 in Hrun.
  destruct (com_unit_step com (GetAddRowSet 1) w2) as [L1 [O1|[e1 O1]]];
    destruct (com_unit com (GetAddRowSet 1) w2) as [r1 w3]; cbn [fst snd] in L1, O1; subst r1.
  2:{ injection Hrun as _ <-. exists 0%nat. repeat split; auto. }
  unfold py_bind at 1 in Hrun.
  destruct (com_unit_step com (ModifyRowDict 0 create_pkg) w3) as [L2 [O2|[e2 O2]]];
    destruct (com_unit com (ModifyRowDict 0 create_pkg) w3) as [r2 w4];
    cbn [fst snd] in L2, O2; subst r2.
  2:{ injection Hrun as _ <-. exists 1%nat. repeat split; auto.
      rewrite L2, L1, <- app_assoc. reflexivity. }
  destruct (com_unit_step com Commit w4) as [L3 _].
  rewrite Hrun in L3. cbn [snd] in L3.
  exists 2%nat. repeat split; auto.
  rewrite L3, L2, L1, <- !app_assoc. reflexivity.
Qed.

(** A server on which no record matches the primary-key filter. *)
Definition create_com : list ComCall -> ComCall -> Reply :=
  fun _ c => match c with
             | RowCount => RInt 0
             | Category => RStr "Contact"
             | Commit => RBool true
             | _ => RNone
             end.

Definition create_run : Result unit * CursorWorld :=
  CursorV2Pk._create_row create_com (fun _ _ => ["[ViewFilter(1,F,,Name,Equal To,Bob)]"])
    (fun _ _ => None) (fun _ _ => None) (fun _ _ => sample_fa) (fun m => ValueError m)
    [("Name", "Bob"); ("Email", "bob@example.com")] labelled_world.

Lemma create_row_adds_only_new_witness :
  exists label w1 pk w2 k,
    CursorV2.pk_label create_com labelled_world = (Ok label, w1)
    /\ CursorV2Pk.dict_get label [("Name", "Bob"); ("Email", "bob@example.com")] = Some pk
    /\ str_truthy pk = true
    /\ CursorV2Pk.pk_exists create_com (fun _ _ => ["[ViewFilter(1,F,,Name,Equal To,Bob)]"])
         (fun _ _ => None) (fun _ _ => None) (fun _ _ => sample_fa) pk w1 = (Ok false, w2)
    /\ cw_log (snd create_run)
       = (cw_log w2 ++ firstn (S k) [GetAddRowSet 1;
            ModifyRowDict 0 [("Name", "Bob"); ("Email", "bob@example.com")]; Commit])%list.
Proof.
  apply (create_row_adds_only_new create_com
           (fun _ _ => ["[ViewFilter(1,F,,Name,Equal To,Bob)]"]) (fun _ _ => None)
           (fun _ _ => None) (fun _ _ => sample_fa) (fun m => ValueError m)
           [("Name", "Bob"); ("Email", "bob@example.com")] labelled_world
           (fst create_run) (snd create_run) (cw_log (snd create_run))).
  - vm_compute. reflexivity.
  - reflexivity.
  - vm_compute. repeat (first [apply Exists_cons_hd; reflexivity | apply Exists_cons_tl]).
Defined.

(** ** The cursor cache of wrapper/new.py's [CmcConnection] *)

Lemma get_nobj_ok o ob (w w1 : NewWorld) :
  get_nobj o w = (Ok ob, w1) -> nobjs w !! o = Some ob /\ w1 = w.
Proof.
  unfold get_nobj. destruct (nobjs w !! o) as [ob'|]; intros E; [|discriminate E].
  injection E as -> ->. auto.
Qed.

(** After [get_cursor(name)] has returned a cursor, [self.cursors] maps
    [name] to it. *)
Lemma new_get_cursor_stores (com : list ComCall -> ComCall -> Reply) fv self name mode flags
  (w w1 : NewWorld) c :
  WrapperNew.get_cursor com fv self name mode flags w = (Ok c, w1) ->
  exists ob cs, nobjs w1 !! self = Some ob /\ cursors ob = Some cs /\ cs !! name = Some c.
Proof.
  unfold WrapperNew.get_cursor. intros E.
  apply bind_ok_inv in E as (ob & w2 & E1 & E). apply get_nobj_ok in E1 as [Hob ->].
  destruct (cursors ob) as [cs|] eqn:Hcs; [|discriminate E].
  destruct (cs !! name) as [csr|] eqn:Hcsr.
  { injection E as <- <-. eauto. }
  apply bind_ok_inv in E as (fstr & w3 & _ & E).
  apply bind_ok_inv in E as (u & w4 & _ & E).
  apply bind_ok_inv in E as (ob1 & w5 & _ & E).
  destruct (n_cmc ob1); [|discriminate E].
  apply bind_ok_inv in E as (csr & w6 & _ & E).
  apply bind_ok_inv in E as (ob2 & w7 & _ & E).
  apply bind_ok_inv in E as (u' & w8 & E8 & E).
  injection E as <- <-. injection E8 as _ <-. cbn [nobjs].
  rewrite lookup_insert_eq. do 2 eexists. split; [reflexivity|split; [reflexivity|]].
  apply lookup_insert_eq.
Qed.

(** The connection objects, the allocation counter and the [CmcAPI]
    cache are those of the state a computation started from. *)
Definition same_objs (w w' : NewWorld) : Prop :=
  nobjs w' = nobjs w /\ nnext w' = nnext w /\ api_connections w' = api_connections w.

Definition keeps_objs {A} (m : PyM NewWorld A) : Prop :=
  forall w, same_objs w (snd (m w)).

Lemma same_objs_refl w : same_objs w w.
Proof. split; [|split]; reflexivity. Qed.

Lemma same_objs_trans w1 w2 w3 : same_objs w1 w2 -> same_objs w2 w3 -> same_objs w1 w3.
Proof. intros (A1 & B1 & C1) (A2 & B2 & C2). split; [|split]; congruence. Qed.

Lemma ko_ret {A} (a : A) : keeps_objs (py_ret a).
Proof. intros w. apply same_objs_refl. Qed.
Lemma ko_raise {A} e : keeps_objs (@py_raise NewWorld A e).
Proof. intros w. apply same_objs_refl. Qed.
Lemma ko_bind {A B} (m : PyM NewWorld A) (k : A -> PyM NewWorld B) :
  keeps_objs m -> (forall a, keeps_objs (k a)) -> keeps_objs (py_bind m k).
Proof.
  intros Hm Hk w. unfold py_bind. specialize (Hm w).
  destruct (m w) as [[a|e] w1]; cbn in Hm |- *; [|exact Hm].
  exact (same_objs_trans _ _ _ Hm (Hk a w1)).
Qed.
Lemma ko_com_call com c : keeps_objs (@com_call NewWorld NewWorld_log com c).
Proof. intros w. unfold com_call. destruct (com (get_log w) c); (split; [|split]; reflexivity). Qed.
Lemma ko_get_nobj o : keeps_objs (get_nobj o).
Proof. intros w. unfold get_nobj. destruct (nobjs w !! o); apply same_objs_refl. Qed.

Create HintDb keeps_objs.
#[local] Hint Resolve ko_ret ko_raise ko_com_call ko_get_nobj : keeps_objs.

Ltac solve_ko :=
  repeat first
    [ apply ko_bind; [|intros ?]
    | progress eauto with keeps_objs
    | match goal with |- keeps_objs (match ?x with _ => _ end) => destruct x end
    | match goal with |- keeps_objs (if ?x then _ else _) => destruct x end ].

Lemma ko_com_obj com c : keeps_objs (@com_obj NewWorld NewWorld_log com c).
Proof. unfold com_obj. solve_ko. Qed.
Lemma ko_check_flags fl : keeps_objs (WrapperNew.check_flags fl).
Proof. induction fl as [|f fl IH]; cbn; solve_ko. Qed.
#[local] Hint Resolve ko_com_obj ko_check_flags : keeps_objs.

(** Reasoning about the state reached by [m >>= k] from one that agrees
    with [w0]. *)
Lemma ko_bind_elim {A B} (m : PyM NewWorld A) (k : A -> PyM NewWorld B) w0 w
  (Q : NewWorld -> Prop) :
  keeps_objs m -> same_objs w0 w ->
  (forall w1, same_objs w0 w1 -> Q w1) ->
  (forall a w1, same_objs w0 w1 -> Q (snd (k a w1))) ->
  Q (snd (py_bind m k w)).
Proof.
  intros Hm Hw Hr Hk. unfold py_bind. specialize (Hm w).
  destruct (m w) as [[a|e] w1]; cbn [snd] in Hm |- *.
  - exact (Hk a w1 (same_objs_trans _ _ _ Hw Hm)).
  - exact (Hr w1 (same_objs_trans _ _ _ Hw Hm)).
Qed.

(** What a [get_cursor(name)] on the connection [o] can do to the state:
    nothing, or add [name] to the cursors of [o] when it was not there. *)
Definition gc_shape (o : nat) (n : option string) (w w' : NewWorld) : Prop :=
  nnext w' = nnext w /\ api_connections w' = api_connections w /\
  (nobjs w' = nobjs w
   \/ exists ob cs csr, nobjs w !! o = Some ob /\ cursors ob = Some cs /\ cs !! n = None
        /\ nobjs w' = <[o := {| n_db_name := n_db_name ob; cursors := Some (<[n := csr]> cs);
                               n_cmc := n_cmc ob |}]> (nobjs w)).

Lemma gc_shape_same o n w w' : same_objs w w' -> gc_shape o n w w'.
Proof. intros (A & B & C). split; [exact B|split; [exact C|left; exact A]]. Qed.

Lemma get_cursor_shape (com : list ComCall -> ComCall -> Reply) fv o n mode flags (w : NewWorld) :
  gc_shape o n w (snd (WrapperNew.get_cursor com fv o n mode flags w)).
Proof.
  unfold WrapperNew.get_cursor. unfold py_bind at 1, get_nobj at 1.
  destruct (nobjs w !! o) as [ob|] eqn:Ho; [|apply gc_shape_same, same_objs_refl].
  destruct (cursors ob) as [cs|] eqn:Hcs; [|apply gc_shape_same, same_objs_refl].
  destruct (cs !! n) as [csr0|] eqn:Hn; [apply gc_shape_same, same_objs_refl|].
  apply (ko_bind_elim _ _ w w (gc_shape o n w));
    [destruct flags; solve_ko | apply same_objs_refl | apply gc_shape_same |].
  intros fs w1 S1. cbv zeta.
  apply (ko_bind_elim _ _ w w1 (gc_shape o n w)); [solve_ko|exact S1|apply gc_shape_same|].
  intros u w2 S2. unfold py_bind at 1, get_nobj at 1.
  destruct S2 as (N2 & X2 & A2). rewrite N2, Ho.
  destruct (n_cmc ob) as [h|] eqn:Hh; [|apply gc_shape_same; split; [|split]; assumption].
  apply (ko_bind_elim _ _ w w2 (gc_shape o n w)); [solve_ko|split; [|split]; assumption
                                                 |apply gc_shape_same|].
  intros csr w3 (N3 & X3 & A3). unfold py_bind, get_nobj, set_nobj, py_ret.
  rewrite N3, Ho. cbn [snd nobjs nnext api_connections]. rewrite N3, Hcs.
  split; [exact X3|split; [exact A3|right]].
  exists ob, cs, csr. rewrite Hh. cbn [default]. auto.
Qed.

(** What a computation on the connection [o] can do to the state: it
    keeps the allocation counter and every other connection object. *)
Definition frame_obj {A} (o : nat) (m : PyM NewWorld A) : Prop :=
  forall w, nnext (snd (m w)) = nnext w
            /\ forall o', o' <> o -> nobjs (snd (m w)) !! o' = nobjs w !! o'.

Lemma fo_ko {A} o (m : PyM NewWorld A) : keeps_objs m -> frame_obj o m.
Proof. intros Hm w. destruct (Hm w) as (A1 & B1 & _). rewrite A1, B1. auto. Qed.
Lemma fo_bind {A B} o (m : PyM NewWorld A) (k : A -> PyM NewWorld B) :
  frame_obj o m -> (forall a, frame_obj o (k a)) -> frame_obj o (py_bind m k).
Proof.
  intros Hm Hk w. unfold py_bind. destruct (Hm w) as [B1 F1].
  destruct (m w) as [[a|e] w1]; cbn [snd] in B1, F1 |- *; [|auto].
  destruct (Hk a w1) as [B2 F2]. split; [congruence|].
  intros o' Ho'. rewrite F2, F1; auto.
Qed.
Lemma fo_try {A} o (m : PyM NewWorld A) (h : PyExc -> PyM NewWorld A) :
  frame_obj o m -> (forall e, frame_obj o (h e)) -> frame_obj o (py_try m h).
Proof.
  intros Hm Hh w. unfold py_try. destruct (Hm w) as [B1 F1].
  destruct (m w) as [[a|e] w1]; cbn [snd] in B1, F1 |- *; [auto|].
  destruct (Hh e w1) as [B2 F2]. split; [congruence|].
  intros o' Ho'. rewrite F2, F1; auto.
Qed.
Lemma fo_set_nobj o ob : frame_obj o (set_nobj o ob).
Proof.
  intros w. split; [reflexivity|]. intros o' Ho'. cbn. apply lookup_insert_ne. congruence.
Qed.
Lemma fo_get_cursor com fv o n mode flags :
  frame_obj o (WrapperNew.get_cursor com fv o n mode flags).
Proof.
  intros w. destruct (get_cursor_shape com fv o n mode flags w) as (B & _ & [N|N]).
  - rewrite N. auto.
  - destruct N as (ob & cs & csr & _ & _ & _ & N). rewrite N. split; [exact B|].
    intros o' Ho'. apply lookup_insert_ne. congruence.
Qed.

Lemma fo_cursors_comprehension com fv o names :
  frame_obj o (WrapperNew.cursors_comprehension com fv o names).
Proof.
  induction names as [|n names IH]; cbn [WrapperNew.cursors_comprehension].
  - apply fo_ko, ko_ret.
  - apply fo_bind; [apply fo_get_cursor|intros c].
    apply fo_bind; [exact IH|intros d]. apply fo_ko, ko_ret.
Qed.

Lemma fo_init com fv o db_name names : frame_obj o (WrapperNew.__init__ com fv o db_name names).
Proof.
  unfold WrapperNew.__init__.
  apply fo_bind; [apply fo_ko, ko_get_nobj|intros ob].
  apply fo_bind; [apply fo_set_nobj|intros _].
  apply fo_bind; [apply fo_cursors_comprehension|intros d].
  apply fo_bind; [apply fo_ko, ko_get_nobj|intros ob1].
  apply fo_bind; [apply fo_set_nobj|intros _].
  apply fo_try.
  - apply fo_bind; [apply fo_ko, ko_com_obj|intros h].
    apply fo_bind; [apply fo_ko, ko_get_nobj|intros ob2]. apply fo_set_nobj.
  - intros e. apply fo_ko. destruct e as [| hr m| | |]; solve_ko.
Qed.

(** A construction allocates the next object and touches no other. *)
Lemma new_connection_frame com fv db_name names (w : NewWorld) :
  let w' := snd (WrapperNew.CmcConnection com fv db_name names w) in
  nnext w' = S (nnext w)
  /\ (forall o', o' <> nnext w -> nobjs w' !! o' = nobjs w !! o').
Proof.
  unfold WrapperNew.CmcConnection. cbv zeta.
  match goal with |- context [(?m ;;; py_ret _) ?w1] =>
    assert (Hf : frame_obj (nnext w) (m ;;; py_ret (nnext w)))
      by (apply fo_bind; [apply fo_init|intros; apply fo_ko, ko_ret]);
    destruct (Hf w1) as [B F]; cbn [nnext nobjs] in B, F end.
  split; [exact B|]. intros o' Ho'. rewrite F by exact Ho'. apply lookup_insert_ne. congruence.
Qed.

Lemma cmcapi_frame com fv name names (w : NewWorld) :
  let w' := snd (WrapperNew.CmcAPI com fv name names w) in
  (nnext w' = nnext w \/ nnext w' = S (nnext w))
  /\ (forall o', o' <> nnext w -> nobjs w' !! o' = nobjs w !! o').
Proof.
  unfold WrapperNew.CmcAPI. cbv zeta.
  destruct (api_connections w !! name); [auto|].
  destruct (new_connection_frame com fv name names w) as [B F].
  unfold py_bind. destruct (WrapperNew.CmcConnection com fv name names w) as [[c|e] w1];
    cbn [snd nnext nobjs] in B, F |- *; auto.
Qed.

(** The operations of wrapper/new.py that change its state: a
    [get_cursor] on some connection, and the constructions through
    [CmcAPI] or [CmcConnection]. *)
Inductive NewOp :=
| OpGetCursor (o : nat) (name : option string) (mode : CursorType) (flags : list OptionFlag)
| OpCmcAPI (cmc_name : string) (cursor_names : list string)
| OpConnect (db_name : string) (cursor_names : list string).

Definition run_new_op (com : list ComCall -> ComCall -> Reply) fv (op : NewOp) (w : NewWorld)
  : NewWorld :=
  match op with
  | OpGetCursor o name mode flags => snd (WrapperNew.get_cursor com fv o name mode flags w)
  | OpCmcAPI cmc_name names => snd (WrapperNew.CmcAPI com fv cmc_name names w)
  | OpConnect db_name names => snd (WrapperNew.CmcConnection com fv db_name names w)
  end.

Fixpoint run_new_ops com fv (ops : list NewOp) (w : NewWorld) : NewWorld :=
  match ops with
  | [] => w
  | op :: rest => run_new_ops com fv rest (run_new_op com fv op w)
  end.

(** Every object is below the allocation counter, and the connection
    [self] has [name] among its cursors, mapped to [c]. *)
Definition cursor_cached (self : nat) (name : option string) (c : nat) (w : NewWorld) : Prop :=
  (forall o ob, nobjs w !! o = Some ob -> (o < nnext w)%nat)
  /\ exists ob cs, nobjs w !! self = Some ob /\ cursors ob = Some cs /\ cs !! name = Some c.

Lemma cursor_cached_alloc self name c (w w' : NewWorld) :
  cursor_cached self name c w ->
  (nnext w' = nnext w \/ nnext w' = S (nnext w)) ->
  (forall o', o' <> nnext w -> nobjs w' !! o' = nobjs w !! o') ->
  (forall ob, nobjs w' !! nnext w = Some ob -> nnext w' = S (nnext w)) ->
  cursor_cached self name c w'.
Proof.
  intros [Hb (ob & cs & Hob & Hcs & Hc)] Hn Hf Hnew. split.
  - intros o ob' Ho. destruct (decide (o = nnext w)) as [->|Hne].
    + rewrite (Hnew ob' Ho). lia.
    + rewrite Hf in Ho by exact Hne. specialize (Hb o ob' Ho). destruct Hn as [-> | ->]; lia.
  - exists ob, cs. rewrite Hf; [auto|]. specialize (Hb self ob Hob). lia.
Qed.

Lemma cursor_cached_op com fv self name c op (w : NewWorld) :
  cursor_cached self name c w -> cursor_cached self name c (run_new_op com fv op w).
Proof.
  intros Hw. destruct op as [o n mode flags|cmc_name names|db_name names]; cbn [run_new_op].
  - destruct Hw as [Hb (ob & cs & Hob & Hcs & Hc)]. unfold cursor_cached.
    destruct (get_cursor_shape com fv o n mode flags w) as (B & _ & [N|N]).
    + split; [intros o' ob' Ho'; rewrite B; rewrite N in Ho'; exact (Hb _ _ Ho')|].
      rewrite N. eauto.
    + destruct N as (ob1 & cs1 & csr & Ho1 & Hcs1 & Hn1 & N). rewrite N, B. split.
      * intros o' ob' Ho'. destruct (decide (o' = o)) as [->|Hne]; [exact (Hb _ _ Ho1)|].
        rewrite lookup_insert_ne in Ho' by congruence. exact (Hb _ _ Ho').
      * destruct (decide (o = self)) as [->|Hne].
        -- rewrite Hob in Ho1. injection Ho1 as <-. rewrite Hcs in Hcs1. injection Hcs1 as <-.
           rewrite lookup_insert_eq. do 2 eexists. split; [reflexivity|split; [reflexivity|]].
           rewrite lookup_insert_ne; [exact Hc|]. intros ->. congruence.
        -- rewrite lookup_insert_ne by congruence. eauto.
  - destruct (cmcapi_frame com fv cmc_name names w) as [Hn Hf].
    apply (cursor_cached_alloc self name c w); [exact Hw|exact Hn|exact Hf|].
    intros ob Ho. destruct Hn as [Hn|Hn]; [|exact Hn].
    exfalso. unfold WrapperNew.CmcAPI in Hn, Ho.
    destruct (api_connections w !! cmc_name).
    + destruct Hw as [Hb _]. specialize (Hb _ _ Ho). cbn [snd] in Hn, Ho. lia.
    + destruct (new_connection_frame com fv cmc_name names w) as [B _].
      unfold py_bind in Hn. destruct (WrapperNew.CmcConnection com fv cmc_name names w)
        as [[c'|e] w1]; cbn [snd nnext] in B, Hn; lia.
  - destruct (new_connection_frame com fv db_name names w) as [Hn Hf].
    apply (cursor_cached_alloc self name c w); [exact Hw|right; exact Hn|exact Hf|auto].
Qed.

Lemma cursor_cached_ops com fv self name c ops :
  forall (w : NewWorld), cursor_cached self name c w ->
  cursor_cached self name c (run_new_ops com fv ops w).
Proof.
  induction ops as [|op ops IH]; intros w Hw; cbn [run_new_ops]; [exact Hw|].
  apply IH, cursor_cached_op, Hw.
Qed.

(** X7: in wrapper/new.py, once [get_cursor(name)] on a connection has
    returned a cursor, every later [get_cursor(name, ...)] on that
    connection returns that same cursor at once, whatever happened in
    between ([get_cursor] calls on this or other connections, new
    connections through [CmcAPI] or [CmcConnection], failed or not) and
    whatever [mode] and [flags] it is given (invalid flags, or a missing
    name for a mode that needs one, are not checked), without any COM
    call and without changing anything.  The state is one where every
    object was allocated by the counter. *)
Theorem new_get_cursor_cached (com : list ComCall -> ComCall -> Reply) fv self name mode flags
  (w w1 : NewWorld) c
  (Halloc : forall o ob, nobjs w !! o = Some ob -> (o < nnext w)%nat)
  (Hrun : WrapperNew.get_cursor com fv self name mode flags w = (Ok c, w1)) :
  forall ops mode' flags',
    let w2 := run_new_ops com fv ops w1 in
    WrapperNew.get_cursor com fv self name mode' flags' w2 = (Ok c, w2).
Proof.
  intros ops mode' flags' w2.
  assert (H1 : cursor_cached self name c w1).
  { split.
    - destruct (get_cursor_shape com fv self name mode flags w) as (B & _ & N).
      rewrite Hrun in B, N. cbn [snd] in B, N. rewrite B.
      destruct N as [N|(ob & cs & csr & Ho & _ & _ & N)]; rewrite N; [exact Halloc|].
      intros o ob' Ho'. destruct (decide (o = self)) as [->|Hne]; [exact (Halloc _ _ Ho)|].
      rewrite lookup_insert_ne in Ho' by congruence. exact (Halloc _ _ Ho').
    - exact (new_get_cursor_stores com fv self name mode flags w w1 c Hrun). }
  destruct (cursor_cached_ops com fv self name c ops w1 H1) as [_ (ob & cs & Hob & Hcs & Hc)].
  unfold w2, WrapperNew.get_cursor, py_bind at 1, get_nobj. rewrite Hob, Hcs, Hc.
  reflexivity.
Qed.

(** A connection of wrapper/new.py opened with no cursor names. *)
Definition opened_new_world : NewWorld :=
  {| api_connections := ∅;
     nobjs := {[ 0%nat := {| n_db_name := Some "Commence.DB"; cursors := Some ∅;
                             n_cmc := Some 5%nat |} ]};
     nnext := 1; n_log := [Dispatch "Commence.DB"] |}.

Definition later_ops : list NewOp :=
  [OpGetCursor 0%nat (Some "Company") CATEGORY []; OpCmcAPI "Other.DB" [];
   OpGetCursor 0%nat (Some "Contact") CATEGORY [PILOT]].

Lemma new_get_cursor_cached_witness :
  (forall o ob, nobjs opened_new_world !! o = Some ob -> (o < nnext opened_new_world)%nat) /\
  WrapperNew.get_cursor cursor_com no_flags 0%nat (Some "Contact") VIEW [OTHER_FLAG 9]
    (run_new_ops cursor_com no_flags later_ops
       (snd (WrapperNew.get_cursor cursor_com no_flags 0%nat (Some "Contact") CATEGORY []
               opened_new_world)))
  = (Ok 3%nat, run_new_ops cursor_com no_flags later_ops
                 (snd (WrapperNew.get_cursor cursor_com no_flags 0%nat (Some "Contact")
                         CATEGORY [] opened_new_world))).
Proof.
  assert (Ha : forall o ob, nobjs opened_new_world !! o = Some ob -> (o < nnext opened_new_world)%nat).
  { intros o ob Ho. cbn [nnext opened_new_world]. destruct (decide (o = 0%nat)) as [->|Hne]; [lia|].
    unfold opened_new_world in Ho. cbn [nobjs] in Ho.
    rewrite lookup_singleton_ne in Ho by congruence. discriminate Ho. }
  split; [exact Ha|].
  apply (new_get_cursor_cached cursor_com no_flags 0%nat (Some "Contact") CATEGORY []
           opened_new_world); [exact Ha|].
  vm_compute. reflexivity.
Defined.

(** ** [CmcAPI] with cursor names *)

Lemma new_connection_nonempty_run (com : list ComCall -> ComCall -> Reply) fv db_name name names
  (w : NewWorld) :
  fst (WrapperNew.CmcConnection com fv db_name (name :: names) w)
  = Raise (AttributeError "cursors")
  /\ n_log (snd (WrapperNew.CmcConnection com fv db_name (name :: names) w)) = n_log w.
Proof.
  unfold WrapperNew.CmcConnection, WrapperNew.__init__.
  cbv beta iota delta [py_bind py_ret get_nobj set_nobj py_raise].
  cbn [nobjs n_log nnext]. rewrite lookup_insert_eq. cbv beta iota.
  cbn [WrapperNew.cursors_comprehension]. unfold WrapperNew.get_cursor.
  cbv beta iota delta [py_bind py_ret get_nobj set_nobj py_raise].
  cbn [nobjs n_log]. rewrite lookup_insert_eq. cbv beta iota.
  cbn [cursors fst snd n_log]. split; reflexivity.
Qed.

(** With no cursor names, a construction makes exactly one COM call,
    [Dispatch(db_name)]. *)
Lemma new_connection_empty_log (com : list ComCall -> ComCall -> Reply) fv db_name
  (w : NewWorld) :
  n_log (snd (WrapperNew.CmcConnection com fv db_name [] w)) = (n_log w ++ [Dispatch db_name])%list.
Proof.
  unfold WrapperNew.CmcConnection, WrapperNew.__init__.
  cbv beta iota delta [py_bind py_ret get_nobj set_nobj py_raise].
  cbn [nobjs n_log nnext]. rewrite lookup_insert_eq. cbv beta iota.
  cbn [WrapperNew.cursors_comprehension].
  cbv beta iota delta [py_bind py_ret get_nobj set_nobj py_raise].
  cbn [nobjs n_log]. rewrite lookup_insert_eq. cbv beta iota.
  unfold py_try, com_obj, com_call.
  cbv beta iota delta [py_bind py_ret get_nobj set_nobj py_raise].
  cbn [get_log set_log NewWorld_log nobjs n_log nnext api_connections].
  destruct (com (n_log w) (Dispatch db_name)) as [| | | | | h | e];
    cbv beta iota; cbn [nobjs]; rewrite ?lookup_insert_eq; cbv beta iota; cbn [snd n_log];
    try reflexivity.
  destruct e as [| hr m | | |]; [| destruct (Z.eqb hr MISSING_DB_HRESULT) | | |]; reflexivity.
Qed.

Lemma new_connection_ok (com : list ComCall -> ComCall -> Reply) fv db_name names
  (w : NewWorld) c :
  fst (WrapperNew.CmcConnection com fv db_name names w) = Ok c -> c = nnext w.
Proof.
  unfold WrapperNew.CmcConnection. cbv zeta. unfold py_bind.
  match goal with |- context [match ?x with _ => _ end] => destruct x as [[u|e] w2] end;
    cbn [fst py_ret]; congruence.
Qed.

(** The [CmcAPI] cache holds allocated objects, one per name. *)
Definition api_cache_inv (w : NewWorld) : Prop :=
  (forall n o, api_connections w !! n = Some o -> (o < nnext w)%nat)
  /\ (forall n1 n2 o, api_connections w !! n1 = Some o -> api_connections w !! n2 = Some o ->
                      n1 = n2).

Lemma api_cache_inv_grow (w w' : NewWorld) :
  api_cache_inv w -> api_connections w' = api_connections w -> (nnext w <= nnext w')%nat ->
  api_cache_inv w'.
Proof.
  intros [Hb Hi] Ha Hn. unfold api_cache_inv. rewrite Ha. split; [|exact Hi].
  intros n o Ho. specialize (Hb n o Ho). lia.
Qed.

Lemma api_cache_inv_op (com : list ComCall -> ComCall -> Reply) fv op (w : NewWorld) :
  api_cache_inv w -> api_cache_inv (run_new_op com fv op w).
Proof.
  intros Hw. destruct op as [o n mode flags|cmc_name names|db_name names]; cbn [run_new_op].
  - destruct (get_cursor_shape com fv o n mode flags w) as (B & A & _).
    apply (api_cache_inv_grow w); [exact Hw|exact A|lia].
  - unfold WrapperNew.CmcAPI.
    destruct (api_connections w !! cmc_name) as [c|] eqn:Hc; [exact Hw|].
    pose proof (keeps_new_connection com fv cmc_name names w) as K.
    destruct (new_connection_frame com fv cmc_name names w) as [B _].
    pose proof (new_connection_ok com fv cmc_name names w) as Ok.
    unfold py_bind.
    destruct (WrapperNew.CmcConnection com fv cmc_name names w) as [[c|e] w1];
      cbn [fst snd] in K, B, Ok |- *.
    + specialize (Ok c eq_refl). subst c. destruct Hw as [Hb Hi].
      split; cbn [api_connections nnext]; rewrite ?K, ?B.
      * intros n o Ho. destruct (decide (n = cmc_name)) as [->|Hne].
        -- rewrite lookup_insert_eq in Ho. injection Ho as <-. lia.
        -- rewrite lookup_insert_ne in Ho by congruence. specialize (Hb n o Ho). lia.
      * intros n1 n2 o H1 H2.
        destruct (decide (n1 = cmc_name)) as [->|Hne1], (decide (n2 = cmc_name)) as [->|Hne2];
          [reflexivity| | |].
        -- rewrite lookup_insert_eq in H1. rewrite lookup_insert_ne in H2 by congruence.
           injection H1 as <-. specialize (Hb _ _ H2). lia.
        -- rewrite lookup_insert_eq in H2. rewrite lookup_insert_ne in H1 by congruence.
           injection H2 as <-. specialize (Hb _ _ H1). lia.
        -- rewrite lookup_insert_ne in H1 by congruence.
           rewrite lookup_insert_ne in H2 by congruence. exact (Hi _ _ _ H1 H2).
    + apply (api_cache_inv_grow w); [exact Hw|exact K|lia].
  - destruct (new_connection_frame com fv db_name names w) as [B _].
    apply (api_cache_inv_grow w); [exact Hw|apply keeps_new_connection|lia].
Qed.

Lemma api_cache_inv_ops (com : list ComCall -> ComCall -> Reply) fv ops :
  forall (w : NewWorld), api_cache_inv w -> api_cache_inv (run_new_ops com fv ops w).
Proof.
  induction ops as [|op ops IH]; intros w Hw; cbn [run_new_ops]; [exact Hw|].
  apply IH, api_cache_inv_op, Hw.
Qed.

Lemma api_cache_inv_empty : api_cache_inv empty_new_world.
Proof. split; intros *; cbn; rewrite lookup_empty; discriminate. Qed.

(** C7, as amended.  In api/db_api.py, after any sequence of constructions
    of [CmcConnection] or [Cmc] (each of which may raise), starting from an
    empty cache: [Dispatch] has been called at most once per name; a
    construction with a cached name returns the cached object, without COM
    calls and without changing anything; any construction, even a failed
    one, leaves its name cached, and one that returns an object has cached
    that object; distinct cached names map to distinct objects.  In
    wrapper/new.py, [CmcAPI] returns a cached connection unchanged,
    whatever [cursor_names] is; for a name not cached it constructs a new
    [CmcConnection], caches the connection it returns and caches nothing
    when the construction raises.  Such a call with an empty
    [cursor_names] makes exactly one COM call, [Dispatch(name)], so after a
    failed construction the next [CmcAPI(name)] dispatches again; with a
    non-empty [cursor_names] it raises [AttributeError] ([cursors]) before
    any COM call.  After any sequence of [get_cursor] calls and
    constructions, starting from an empty cache, distinct names in the
    [CmcAPI] cache map to distinct connections. *)
Theorem connection_cache_amended :
  (forall (com : list ComCall -> ComCall -> Reply) cs cls name,
     let w := constructs_after com cs empty_conn_world in
     (forall n, (dispatch_count n (conn_log w) <= 1)%nat)
     /\ (forall o, connections w !! name = Some o -> DbApi.construct com cls name w = (Ok o, w))
     /\ connections (snd (DbApi.construct com cls name w)) !! name <> None
     /\ (forall o w', DbApi.construct com cls name w = (Ok o, w') ->
                      connections w' !! name = Some o)
     /\ (forall n1 n2 o, connections w !! n1 = Some o -> connections w !! n2 = Some o -> n1 = n2))
  /\ (forall (com : list ComCall -> ComCall -> Reply) fv name names (w : NewWorld),
     (forall o, api_connections w !! name = Some o ->
                WrapperNew.CmcAPI com fv name names w = (Ok o, w))
     /\ (forall o w', WrapperNew.CmcAPI com fv name names w = (Ok o, w') ->
                      api_connections w' !! name = Some o)
     /\ (forall e w', WrapperNew.CmcAPI com fv name names w = (Raise e, w') ->
                      api_connections w' = api_connections w)
     /\ (api_connections w !! name = None ->
         n_log (snd (WrapperNew.CmcAPI com fv name [] w)) = (n_log w ++ [Dispatch name])%list)
     /\ (forall n ns, api_connections w !! name = None ->
         fst (WrapperNew.CmcAPI com fv name (n :: ns) w) = Raise (AttributeError "cursors")
         /\ api_connections (snd (WrapperNew.CmcAPI com fv name (n :: ns) w)) = api_connections w
         /\ n_log (snd (WrapperNew.CmcAPI com fv name (n :: ns) w)) = n_log w))
  /\ (forall (com : list ComCall -> ComCall -> Reply) fv ops,
     let w := run_new_ops com fv ops empty_new_world in
     forall n1 n2 o, api_connections w !! n1 = Some o -> api_connections w !! n2 = Some o ->
                     n1 = n2).
Proof.
  split; [|split].
  - intros com cs cls name w.
    assert (Hw : conn_inv w) by apply constructs_after_inv, conn_inv_empty.
    destruct (construct_result com cls name w Hw) as [Hc1 Hc2].
    pose proof Hw as (Hini & _ & Hinj & Hdc & _).
    split; [exact Hdc|split; [|split; [exact Hc1|split; [exact Hc2|exact Hinj]]]].
    intros o Ho. destruct (Hini name o Ho) as (ob & Hob & Hi).
    exact (construct_cached_run com cls name o ob w Ho Hob Hi).
  - intros com fv name names w.
    split; [|split; [|split; [|split]]].
    + intros o Ho. unfold WrapperNew.CmcAPI. rewrite Ho. reflexivity.
    + intros o w'. unfold WrapperNew.CmcAPI.
      destruct (api_connections w !! name) as [c|] eqn:Hc.
      * intros E. injection E as <- <-. exact Hc.
      * unfold py_bind. destruct (WrapperNew.CmcConnection com fv name names w) as [[c|e] w1].
        -- intros E. injection E as <- <-. cbn [api_connections]. apply lookup_insert_eq.
        -- intros E. discriminate E.
    + intros e w'. unfold WrapperNew.CmcAPI.
      destruct (api_connections w !! name) as [c|] eqn:Hc; [intros E; discriminate E|].
      pose proof (keeps_new_connection com fv name names w) as Hk.
      unfold py_bind. destruct (WrapperNew.CmcConnection com fv name names w) as [[c|e'] w1].
      * intros E. discriminate E.
      * intros E. injection E as _ <-. exact Hk.
    + intros Hc. unfold WrapperNew.CmcAPI. rewrite Hc. unfold py_bind.
      pose proof (new_connection_empty_log com fv name w) as Hl.
      destruct (WrapperNew.CmcConnection com fv name [] w) as [[c|e] w1]; exact Hl.
    + intros n ns Hc. unfold WrapperNew.CmcAPI. rewrite Hc. unfold py_bind.
      destruct (new_connection_nonempty_run com fv name n ns w) as [Hr Hl].
      pose proof (keeps_new_connection com fv name (n :: ns) w) as Hk.
      destruct (WrapperNew.CmcConnection com fv name (n :: ns) w) as [[c|e] w1].
      * discriminate Hr.
      * cbn in Hr, Hl, Hk |- *. auto.
  - intros com fv ops w.
    exact (proj2 (api_cache_inv_ops com fv ops empty_new_world api_cache_inv_empty)).
Qed.

(** ** [get_cmc_date] *)


(** ** [CmcHandler.records_by_field] *)

(** X10: inside its filter context, [CmcHandler.records_by_field] returns
    the records read, unchanged, exactly when they are non-empty or
    [empty='ignore'], and [max_rtn] is unset, [0] (falsy, so no limit) or
    at least their number.  Otherwise it raises [CmcError]: about no record
    found when the records are empty and [empty='raise'], and about too many
    records otherwise.  It makes no call besides reading the records. *)
Theorem records_by_field_outcome {W : Type} (records : PyM W (list Row))
  field_name value max_rtn empty (w w1 : W) rs
  (Hrecords : records w = (Ok rs, w1)) :
  let r := CsrHandler.records_by_field_body records field_name value max_rtn empty w in
  snd r = w1
  /\ (fst r = Ok rs
      <-> (rs <> [] \/ empty = EmptyIgnore)
          /\ (forall m, max_rtn = Some m -> m = 0 \/ Z.of_nat (length rs) <= m))
  /\ (rs = [] -> empty = EmptyRaise ->
      fst r = Raise (CmcError ("No record found for " ++ field_name ++ " " ++ value)))
  /\ (forall m, max_rtn = Some m -> m <> 0 -> m < Z.of_nat (length rs) ->
         (rs <> [] \/ empty = EmptyIgnore) ->
      fst r = Raise (CmcError ("Expected max " ++ py_int_str m ++ " records, got "
                               ++ py_int_str (Z.of_nat (length rs))))).
Proof.
  intros r.
  set (c1 := (match rs with [] => true | _ => false end
              && match empty with EmptyRaise => true | EmptyIgnore => false end)%bool).
  set (c2 := match max_rtn with
             | Some m => (negb (Z.eqb m 0) && Z.ltb m (Z.of_nat (length rs)))%bool
             | None => false end).
  assert (Hr : r = (if c1 then Raise (CmcError ("No record found for " ++ field_name ++ " "
                                                ++ value))
                    else match max_rtn with
                         | Some m => if c2 then Raise (CmcError ("Expected max " ++ py_int_str m
                                          ++ " records, got " ++ py_int_str (Z.of_nat (length rs))))
                                     else Ok rs
                         | None => Ok rs end, w1)).
  { unfold r, CsrHandler.records_by_field_body, py_bind. rewrite Hrecords.
    unfold c1, c2. destruct (_ && _)%bool; [reflexivity|].
    destruct max_rtn as [m|]; [|reflexivity]. by destruct (_ && _)%bool. }
  assert (Hc1 : c1 = false <-> rs <> [] \/ empty = EmptyIgnore).
  { unfold c1. destruct rs, empty; cbn; split; intros H; auto; try discriminate;
      try (left; discriminate); destruct H as [H|H]; congruence. }
  assert (Hc2 : c2 = false <-> forall m, max_rtn = Some m -> m = 0 \/ Z.of_nat (length rs) <= m).
  { unfold c2. destruct max_rtn as [m|].
    - split.
      + intros H m' E. injection E as <-.
        destruct (Z.eqb_spec m 0); [auto|]. destruct (Z.ltb_spec m (Z.of_nat (length rs)));
          [discriminate H|]. right. lia.
      + intros H. destruct (H m eq_refl) as [->|H'].
        * reflexivity.
        * destruct (Z.eqb m 0); [reflexivity|]. cbn. apply Z.ltb_ge. lia.
    - split; [intros _ m' E; discriminate E|reflexivity]. }
  rewrite Hr. cbn [fst snd]. split; [reflexivity|].
  split; [|split].
  - rewrite <- Hc1, <- Hc2. destruct c1; [split; [discriminate|intros [H _]; discriminate H]|].
    destruct max_rtn as [m|]; [|split; [intros _; split; reflexivity|reflexivity]].
    destruct c2; split; try discriminate; try (intros [_ H]; discriminate H); auto.
  - intros -> ->. reflexivity.
  - intros m -> Hm Hlt Hne.
    assert (E2 : c2 = true) by (unfold c2; apply andb_true_intro; split;
                                [apply negb_true_iff, Z.eqb_neq; exact Hm | apply Z.ltb_lt; exact Hlt]).
    apply Hc1 in Hne. rewrite Hne, E2. reflexivity.
Qed.

Definition two_rows : list Row := [∅; ∅].

Lemma records_by_field_outcome_witness :
  let r := CsrHandler.records_by_field_body (fun w : unit => (Ok two_rows, w))
             "Name" "Bob" (Some 1) EmptyRaise tt in
  snd r = tt
  /\ (fst r = Ok two_rows
      <-> (two_rows <> [] \/ EmptyRaise = EmptyIgnore)
          /\ (forall m, Some 1 = Some m -> m = 0 \/ Z.of_nat (length two_rows) <= m))
  /\ (two_rows = [] -> EmptyRaise = EmptyRaise ->
      fst r = Raise (CmcError ("No record found for " ++ "Name" ++ " " ++ "Bob")))
  /\ (forall m, Some 1 = Some m -> m <> 0 -> m < Z.of_nat (length two_rows) ->
         (two_rows <> [] \/ EmptyRaise = EmptyIgnore) ->
      fst r = Raise (CmcError ("Expected max " ++ py_int_str m ++ " records, got "
                               ++ py_int_str (Z.of_nat (length two_rows))))).
Proof.
  exact (records_by_field_outcome (fun w : unit => (Ok two_rows, w))
           "Name" "Bob" (Some 1) EmptyRaise tt tt two_rows eq_refl).
Defined.

(** ** [Csr.edit_record] *)

(** The outcome of a [com_unit] call, read off the COM reply. *)
Definition reply_unit (r : Reply) : Result unit :=
  match r with RRaise e => Raise e | _ => Ok tt end.

Lemma com_unit_csr (com : list ComCall -> ComCall -> Reply) c (w : CsrWorld) :
  com_unit com c w = (reply_unit (com (csr_log w) c), {| csr_log := (csr_log w ++ [c])%list |}).
Proof.
  unfold com_unit, py_bind, com_call. cbn [get_log set_log CsrWorld_log].
  destruct (com (csr_log w) c); reflexivity.
Qed.

(** The calls a computation appends to the log never include [Commit]. *)
Definition no_commit {A} (m : PyM CsrWorld A) : Prop :=
  forall w, exists ext, csr_log (snd (m w)) = (csr_log w ++ ext)%list /\ ~ In Commit ext.

Lemma no_commit_ret {A} (a : A) : no_commit (py_ret a).
Proof. intros w. exists []. rewrite app_nil_r. split; [reflexivity|intros []]. Qed.

Lemma no_commit_raise {A} e : no_commit (A:=A) (py_raise e).
Proof. intros w. exists []. rewrite app_nil_r. split; [reflexivity|intros []]. Qed.

Lemma no_commit_bind {A B} (m : PyM CsrWorld A) (k : A -> PyM CsrWorld B) :
  no_commit m -> (forall a, no_commit (k a)) -> no_commit (py_bind m k).
Proof.
  intros Hm Hk w. unfold py_bind. destruct (Hm w) as (e1 & E1 & N1).
  destruct (m w) as [[a|e] w1]; cbn [snd] in E1 |- *.
  - destruct (Hk a w1) as (e2 & E2 & N2). exists (e1 ++ e2)%list.
    rewrite E2, E1, app_assoc. split; [reflexivity|].
    rewrite in_app_iff. intros [H|H]; auto.
  - exists e1. auto.
Qed.

Lemma no_commit_try {A} (m : PyM CsrWorld A) (h : PyExc -> PyM CsrWorld A) :
  no_commit m -> (forall e, no_commit (h e)) -> no_commit (py_try m h).
Proof.
  intros Hm Hh w. unfold py_try. destruct (Hm w) as (e1 & E1 & N1).
  destruct (m w) as [[a|e] w1]; cbn [snd] in E1 |- *.
  - exists e1. auto.
  - destruct (Hh e w1) as (e2 & E2 & N2). exists (e1 ++ e2)%list.
    rewrite E2, E1, app_assoc. split; [reflexivity|].
    rewrite in_app_iff. intros [H|H]; auto.
Qed.

Lemma no_commit_com_unit com c : c <> Commit -> no_commit (com_unit com c).
Proof.
  intros Hc w. rewrite com_unit_csr. exists [c]. split; [reflexivity|].
  intros [H|[]]. exact (Hc H).
Qed.

Lemma reply_unit_raise r e : reply_unit r = Raise e -> r = RRaise e.
Proof. destruct r; cbn; congruence. Qed.

Section EditRecord.
Variable com : list ComCall -> ComCall -> Reply.
Variable get_column_index : string -> PyM CsrWorld Z.

Lemma modify_fields_no_commit
  (Hgci : forall k, no_commit (get_column_index k)) package :
  no_commit (CsrOps.modify_fields com get_column_index package).
Proof.
  induction package as [|[key value] rest IH]; cbn [CsrOps.modify_fields].
  - apply no_commit_ret.
  - apply no_commit_bind; [|intros _; exact IH].
    apply no_commit_try; [|intros _; apply no_commit_raise].
    apply no_commit_bind; [apply Hgci|intros c; apply no_commit_com_unit; discriminate].
Qed.

Lemma modify_fields_raise package (w w' : CsrWorld) e :
  CsrOps.modify_fields com get_column_index package w = (Raise e, w') ->
  exists key value, In (key, value) package
                    /\ e = CmcError ("Could not modify " ++ key ++ " to " ++ value).
Proof.
  revert w. induction package as [|[key value] rest IH]; intros w; cbn [CsrOps.modify_fields].
  - discriminate.
  - unfold py_bind at 1, py_try.
    destruct (py_bind (get_column_index key) _ w) as [[c|e1] w1].
    + intros E. destruct (IH w1 E) as (k & v & Hin & ->). exists k, v. split; [right; exact Hin|reflexivity].
    + unfold py_raise. intros E. injection E as <- _. exists key, value. split; [left; reflexivity|reflexivity].
Qed.

End EditRecord.

(** X11: when the column lookups of the row set issue no [Commit],
    [Csr.edit_record(name, package)] commits at most once, as its last
    call: a run that commits made exactly the calls [SetFilter] for the
    name, [GetEditRowSet], those of a loop over [package] that modified
    every field without an exception, then [Commit].  A run that raises
    without committing raises the error of the [SetFilter] or
    [GetEditRowSet] call, or [CmcError("Could not modify {key} to {value}")]
    for an item of [package]. *)
Theorem edit_record_commits_last (com : list ComCall -> ComCall -> Reply)
  (get_column_index : string -> PyM CsrWorld Z)
  (Hgci : forall k, no_commit (get_column_index k))
  name package (w : CsrWorld) :
  let r := CsrOps.edit_record com get_column_index name package w in
  let fs := Csr.field_filter_str "Name" "Equal To" name 1 in
  let w2 := {| csr_log := (csr_log w ++ [SetFilter fs; GetEditRowSet])%list |} in
  exists ext, csr_log (snd r) = (csr_log w ++ ext)%list
  /\ (In Commit ext ->
      exists mid, ext = (SetFilter fs :: GetEditRowSet :: mid ++ [Commit])%list
        /\ ~ In Commit mid
        /\ CsrOps.modify_fields com get_column_index package w2
           = (Ok tt, {| csr_log := (csr_log w2 ++ mid)%list |}))
  /\ (forall e, fst r = Raise e -> ~ In Commit ext ->
      com (csr_log w) (SetFilter fs) = RRaise e
      \/ com (csr_log w ++ [SetFilter fs])%list GetEditRowSet = RRaise e
      \/ exists key value, In (key, value) package
                           /\ e = CmcError ("Could not modify " ++ key ++ " to " ++ value)).
Proof.
  intros r fs w2. unfold r, CsrOps.edit_record, Csr.filter_by_name, Csr.filter_by_field.
  fold fs. cbv beta delta [py_bind]. rewrite com_unit_csr.
  destruct (reply_unit (com (csr_log w) (SetFilter fs))) as [[]|e1] eqn:C1.
  2: { exists [SetFilter fs]. cbn [fst snd csr_log]. split; [reflexivity|split].
       - intros [H|[]]. discriminate H.
       - intros e E _. injection E as <-. left. apply reply_unit_raise. exact C1. }
  rewrite com_unit_csr. cbn [csr_log].
  destruct (reply_unit (com (csr_log w ++ [SetFilter fs])%list GetEditRowSet)) as [[]|e2] eqn:C2.
  2: { exists [SetFilter fs; GetEditRowSet]. cbn [fst snd csr_log].
       split; [rewrite <- app_assoc; reflexivity|split].
       - intros [H|[H|[]]]; discriminate H.
       - intros e E _. injection E as <-. right; left. apply reply_unit_raise. exact C2. }
  replace {| csr_log := ((csr_log w ++ [SetFilter fs]) ++ [GetEditRowSet])%list |} with w2
    by (unfold w2; rewrite <- app_assoc; reflexivity).
  destruct (modify_fields_no_commit com get_column_index Hgci package w2) as (mid & Em & Nm).
  destruct (CsrOps.modify_fields com get_column_index package w2) as [[[]|e3] w3] eqn:C3;
    cbn [snd] in Em.
  - rewrite com_unit_csr. cbn [fst snd csr_log].
    exists (SetFilter fs :: GetEditRowSet :: mid ++ [Commit])%list.
    split; [rewrite Em; unfold w2; cbn [csr_log]; rewrite <- !app_assoc; reflexivity|split].
    + intros _. exists mid. split; [reflexivity|split; [exact Nm|]].
      destruct w3 as [l3]. cbn [csr_log] in Em. subst l3. reflexivity.
    + intros e _ N. exfalso. apply N. right; right. apply in_app_iff. right. left. reflexivity.
  - exists (SetFilter fs :: GetEditRowSet :: mid)%list. cbn [fst snd].
    split; [rewrite Em; unfold w2; cbn [csr_log]; rewrite <- app_assoc; reflexivity|split].
    + intros [H|[H|H]]; [discriminate H|discriminate H|contradiction].
    + intros e E _. injection E as <-. right; right.
      exact (modify_fields_raise com get_column_index package w2 w3 e3 C3).
Qed.

Definition edit_com (h : list ComCall) (c : ComCall) : Reply := RNone.

Lemma edit_record_commits_last_witness :
  (forall k, no_commit ((fun _ : string => py_ret 3) k)) /\
  let r := CsrOps.edit_record edit_com (fun _ => py_ret 3) "Bob" [("Age", "30")]
             {| csr_log := [] |} in
  let fs := Csr.field_filter_str "Name" "Equal To" "Bob" 1 in
  let w2 := {| csr_log := ([] ++ [SetFilter fs; GetEditRowSet])%list |} in
  exists ext, csr_log (snd r) = ([] ++ ext)%list
  /\ (In Commit ext ->
      exists mid, ext = (SetFilter fs :: GetEditRowSet :: mid ++ [Commit])%list
        /\ ~ In Commit mid
        /\ CsrOps.modify_fields edit_com (fun _ => py_ret 3) [("Age", "30")] w2
           = (Ok tt, {| csr_log := (csr_log w2 ++ mid)%list |}))
  /\ (forall e, fst r = Raise e -> ~ In Commit ext ->
      edit_com [] (SetFilter fs) = RRaise e
      \/ edit_com ([] ++ [SetFilter fs])%list GetEditRowSet = RRaise e
      \/ exists key value, In (key, value) [("Age", "30")]
                           /\ e = CmcError ("Could not modify " ++ key ++ " to " ++ value)).
Proof.
  split; [intros k; apply no_commit_ret|].
  exact (edit_record_commits_last edit_com (fun _ => py_ret 3) (fun k => no_commit_ret 3)
           "Bob" [("Age", "30")] {| csr_log := [] |}).
Defined.

(** ** [Csr.set_filters] *)

Lemma filter_from_ok (com : list ComCall -> ComCall -> Reply) (filter_str : CmcFilter -> Z -> string)
  (Hset : forall h s e, com h (SetFilter s) <> RRaise e) filters :
  forall i (w : CsrWorld),
  CsrOps.filter_from com filter_str i filters w
  = (Ok tt, {| csr_log := (csr_log w
                           ++ imap (fun k f => SetFilter (filter_str f (Z.of_nat k + i))) filters)%list |}).
Proof.
  induction filters as [|f rest IH]; intros i w; cbn [CsrOps.filter_from].
  - rewrite imap_nil, app_nil_r. destruct w. reflexivity.
  - unfold py_bind at 1, CsrOps.filter. rewrite com_unit_csr.
    destruct (reply_unit (com (csr_log w) (SetFilter (filter_str f i)))) as [[]|e] eqn:C;
      [|exfalso; apply reply_unit_raise in C; exact (Hset _ _ _ C)].
    rewrite IH. cbn [csr_log]. rewrite imap_cons, <- app_assoc. cbn [app compose].
    replace (Z.of_nat 0 + i) with i by lia.
    apply (f_equal (fun l => (Ok tt, {| csr_log := (csr_log w ++ SetFilter (filter_str f i) :: l)%list |}))).
    apply imap_ext. intros k g _. cbn. do 2 f_equal. lia.
Qed.

(** X12: when the cursor accepts every [SetFilter] call,
    [Csr.set_filters(filters, get_all)] sets the [k]-th filter of
    [filters] (counting from 0) in slot [k+1], in the order of the list;
    then, with [get_all], it returns the records read by
    [get_records()] (or its exception), and otherwise it returns [None]
    with no further call. *)
Theorem set_filters_slots (com : list ComCall -> ComCall -> Reply)
  (filter_str : CmcFilter -> Z -> string)
  (Hset : forall h s e, com h (SetFilter s) <> RRaise e)
  filters get_all (w : CsrWorld) :
  let w1 := {| csr_log := (csr_log w
                           ++ imap (fun k f => SetFilter (filter_str f (Z.of_nat k + 1))) filters)%list |} in
  CsrOps.set_filters com filter_str filters get_all w
  = if get_all
    then match Csr.get_records com None w1 with
         | (Ok rs, w') => (Ok (Some rs), w')
         | (Raise e, w') => (Raise e, w')
         end
    else (Ok None, w1).
Proof.
  intros w1. unfold CsrOps.set_filters, py_bind at 1.
  rewrite (filter_from_ok com filter_str Hset filters 1 w). fold w1.
  destruct get_all; [|reflexivity].
  unfold py_bind, py_ret. destruct (Csr.get_records com None w1) as [[rs|e] w']; reflexivity.
Qed.

Definition filters_com (h : list ComCall) (c : ComCall) : Reply :=
  match c with
  | RowSetRows => RRows [∅]
  | _ => RNone
  end.

Definition sample_filter : CmcFilter :=
  {| cmc_col := "Name"; f_type := F; value := "Bob"; condition := EQUAL; not_flag := NotFlagEmpty |}.

Lemma set_filters_slots_witness :
  (forall h s e, filters_com h (SetFilter s) <> RRaise e) /\
  let w1 := {| csr_log := ([]
                           ++ imap (fun k f => SetFilter (filter_str2 f (Z.of_nat k + 1))) [sample_filter; sample_filter])%list |} in
  CsrOps.set_filters filters_com filter_str2 [sample_filter; sample_filter] true {| csr_log := [] |}
  = match Csr.get_records filters_com None w1 with
    | (Ok rs, w') => (Ok (Some rs), w')
    | (Raise e, w') => (Raise e, w')
    end.
Proof.
  assert (H : forall h s e, filters_com h (SetFilter s) <> RRaise e) by (intros h s e; discriminate).
  split; [exact H|].
  exact (set_filters_slots filters_com filter_str2 H [sample_filter; sample_filter] true {| csr_log := [] |}).
Defined.
